(** * Suppress: a minimal HTTP router

    Shallow embedding of [SuppressController] (the route table) and
    [Suppress] (the dispatcher), together with the JavaScript string and
    object primitives their request path goes through.

    Modelling conventions
    - JavaScript strings are [string]; [undefined] is [None].
    - A plain object used as a dictionary (the per-method route maps) and the
      [Map] of controllers are [gmap string _].
    - The response object handed to a request callback is threaded as state;
      a synchronous [throw] is an abrupt completion that keeps the state
      reached so far.
    - Objects are shared by reference in the source.  [Suppress.t] is the
      dispatcher as a request callback sees it; [Objects.t] is the object
      graph behind it, with identities, for the properties that depend on
      which object a registration is made on.
    - Handlers are opaque: they have an identity and a behaviour on
      (request, response) that either returns or throws.  They are assumed
      to be plain functions (no own properties) that do not re-enter the
      registration API while a request is being dispatched. *)

From Stdlib Require Import String Ascii ZArith List Bool.
From stdpp Require Import base option list gmap strings.

Set Warnings "-register-all".

Local Open Scope string_scope.
Local Open Scope Z_scope.

(* ------------------------------------------------------------------ *)
(** ** JavaScript primitives used by the router *)

Module JS.

(** [s.slice(n)] *)
Fixpoint slice (n : nat) (s : string) : string :=
  match n, s with
  | O, _ => s
  | S _, EmptyString => EmptyString
  | S n', String _ s' => slice n' s'
  end.

(** [s.startsWith(p)] *)
Definition startsWith (s p : string) : bool := String.prefix p s.

(** [s.replace(pat, repl)] for a string pattern: only the first
    occurrence of [pat], wherever it is, is replaced.  The replacement
    strings of the source contain no [$], so no substitution pattern is
    interpreted. *)
Fixpoint replace (s pat repl : string) : string :=
  if String.prefix pat s then repl +:+ slice (String.length pat) s
  else match s with
       | EmptyString => EmptyString
       | String c s' => String c (replace s' pat repl)
       end.

(** [s.split(sep)] for a one-character separator. *)
Fixpoint split (s : string) (sep : ascii) : list string :=
  match s with
  | EmptyString => [EmptyString]
  | String c s' =>
      if Ascii.eqb c sep then EmptyString :: split s' sep
      else match split s' sep with
           | w :: ws => String c w :: ws
           | [] => [String c EmptyString]
           end
  end.

(** [Boolean(s)] on a string: the empty string is the only falsy one. *)
Definition Boolean (s : string) : bool := negb (String.eqb s "").

(** [xs.filter(Boolean)] *)
Definition filter_Boolean (xs : list string) : list string :=
  List.filter Boolean xs.

(** [a || d] where [a : string | undefined]. *)
Definition or_else (a : option string) (d : string) : string :=
  match a with
  | Some s => if Boolean s then s else d
  | None => d
  end.

(** [xs.includes(x)] where [x : string | undefined]. *)
Definition includes (xs : list string) (x : option string) : bool :=
  match x with
  | Some s => existsb (String.eqb s) xs
  | None => false
  end.

(** Own and inherited keys of an object literal: the names every plain
    object inherits from [Object.prototype]. *)
Definition Object_prototype_names : list string :=
  [ "constructor"; "__defineGetter__"; "__defineSetter__";
    "hasOwnProperty"; "__lookupGetter__"; "__lookupSetter__";
    "isPrototypeOf"; "propertyIsEnumerable"; "toString"; "valueOf";
    "__proto__"; "toLocaleString" ].

End JS.

(* ------------------------------------------------------------------ *)
(** ** [JSON.stringify] on the values the router serialises *)

Module JSON.

Inductive value : Type :=
| Str (s : string)
| Obj (fields : list (string * value)).

Definition dquote : ascii := "034"%char.
Definition backslash : ascii := "092"%char.

Definition hex_digit (n : nat) : ascii :=
  ascii_of_nat (if Nat.ltb n 10 then 48 + n else 87 + n)%nat.

Definition escape_char (c : ascii) : string :=
  let n := nat_of_ascii c in
  if Ascii.eqb c dquote then String backslash (String dquote EmptyString)
  else if Ascii.eqb c backslash then String backslash (String backslash EmptyString)
  else if Nat.eqb n 8 then String backslash "b"
  else if Nat.eqb n 9 then String backslash "t"
  else if Nat.eqb n 10 then String backslash "n"
  else if Nat.eqb n 12 then String backslash "f"
  else if Nat.eqb n 13 then String backslash "r"
  else if Nat.ltb n 32 then
    String backslash ("u00" +:+ String (hex_digit (n / 16)) (String (hex_digit (n mod 16)) EmptyString))
  else String c EmptyString.

Fixpoint escape (s : string) : string :=
  match s with
  | EmptyString => EmptyString
  | String c s' => escape_char c +:+ escape s'
  end.

Definition quote (s : string) : string :=
  String dquote (escape s +:+ String dquote EmptyString).

Fixpoint stringify (v : value) : string :=
  match v with
  | Str s => quote s
  | Obj fields =>
      let fix members (fs : list (string * value)) : string :=
        match fs with
        | [] => EmptyString
        | (k, x) :: [] => quote k +:+ ":" +:+ stringify x
        | (k, x) :: rest => quote k +:+ ":" +:+ stringify x +:+ "," +:+ members rest
        end in
      "{" +:+ members fields +:+ "}"
  end.

End JSON.

(* ------------------------------------------------------------------ *)
(** ** src/types/index.ts *)

Module HttpMethods.
(** [type HttpMethods = 'GET' | 'POST' | 'PUT' | 'DELETE'] *)
Inductive t : Type := GET | POST | PUT | DELETE.

Definition name (m : t) : string :=
  match m with
  | GET => "GET"
  | POST => "POST"
  | PUT => "PUT"
  | DELETE => "DELETE"
  end.

Definition all : list string := ["GET"; "POST"; "PUT"; "DELETE"].
End HttpMethods.

Module HttpStatusCode.
Inductive t : Type :=
| OK | CREATED | ACCEPTED | NO_CONTENT
| MOVED_PERMANENTLY | FOUND | SEE_OTHER | NOT_MODIFIED
| TEMPORARY_REDIRECT | PERMANENT_REDIRECT
| BAD_REQUEST | UNAUTHORIZED | FORBIDDEN | NOT_FOUND
| METHOD_NOT_ALLOWED | NOT_ACCEPTABLE | CONFLICT | GONE
| UNSUPPORTED_MEDIA_TYPE | TOO_MANY_REQUESTS
| INTERNAL_SERVER_ERROR | NOT_IMPLEMENTED | BAD_GATEWAY
| SERVICE_UNAVAILABLE | GATEWAY_TIMEOUT.

Definition code (s : t) : Z :=
  match s with
  | OK => 200 | CREATED => 201 | ACCEPTED => 202 | NO_CONTENT => 204
  | MOVED_PERMANENTLY => 301 | FOUND => 302 | SEE_OTHER => 303
  | NOT_MODIFIED => 304 | TEMPORARY_REDIRECT => 307
  | PERMANENT_REDIRECT => 308
  | BAD_REQUEST => 400 | UNAUTHORIZED => 401 | FORBIDDEN => 403
  | NOT_FOUND => 404 | METHOD_NOT_ALLOWED => 405 | NOT_ACCEPTABLE => 406
  | CONFLICT => 409 | GONE => 410 | UNSUPPORTED_MEDIA_TYPE => 415
  | TOO_MANY_REQUESTS => 429
  | INTERNAL_SERVER_ERROR => 500 | NOT_IMPLEMENTED => 501
  | BAD_GATEWAY => 502 | SERVICE_UNAVAILABLE => 503
  | GATEWAY_TIMEOUT => 504
  end.
End HttpStatusCode.

(** The two node:http objects, reduced to what the router reads and
    writes: [req.method], [req.url]; [res.statusCode] and the chunks passed
    to [res.end]. *)
Record IncomingMessage : Type := mkReq {
  method : option string;
  url : option string
}.

Record ServerResponse : Type := mkRes {
  statusCode : Z;
  body : list string;
  writableEnded : bool
}.

Definition fresh_response : ServerResponse :=
  {| statusCode := 200; body := []; writableEnded := false |}.

(* ------------------------------------------------------------------ *)
(** ** Effects of a request callback

    What one call of a request callback can do: mutate the response
    object, call handlers, and throw.  [invoked] is the ghost log of the
    handlers that were called, in order. *)

Inductive thrown (exn : Type) : Type :=
| TypeError (msg : string)
| Raised (e : exn).
Arguments TypeError {exn} msg.
Arguments Raised {exn} e.

Inductive completion (exn A : Type) : Type :=
| Normal (a : A)
| Abrupt (t : thrown exn).
Arguments Normal {exn A} a.
Arguments Abrupt {exn A} t.

Record World (handler : Type) : Type := mkWorld {
  response : ServerResponse;
  invoked : list handler
}.
Arguments mkWorld {handler} response invoked.
Arguments response {handler} w.
Arguments invoked {handler} w.

Definition Eff (handler exn A : Type) : Type :=
  World handler -> completion exn A * World handler.

Definition ret {handler exn A} (a : A) : Eff handler exn A :=
  fun w => (Normal a, w).

Definition bind {handler exn A B}
    (c : Eff handler exn A) (k : A -> Eff handler exn B) : Eff handler exn B :=
  fun w =>
    match c w with
    | (Normal a, w') => k a w'
    | (Abrupt t, w') => (Abrupt t, w')
    end.

Declare Scope eff_scope.
Delimit Scope eff_scope with eff.
Notation "c1 ;; c2" := (bind c1 (fun _ => c2))
  (at level 100, c2 at level 200, right associativity) : eff_scope.
Local Open Scope eff_scope.

(** [res.statusCode = s] *)
Definition set_statusCode {handler exn} (s : HttpStatusCode.t)
    : Eff handler exn unit :=
  fun w =>
    (Normal tt,
     mkWorld {| statusCode := HttpStatusCode.code s;
                body := body (response w);
                writableEnded := writableEnded (response w) |}
             (invoked w)).

(** [res.end(chunk)] *)
Definition res_end {handler exn} (chunk : string) : Eff handler exn unit :=
  fun w =>
    (Normal tt,
     mkWorld {| statusCode := statusCode (response w);
                body := body (response w) ++ [chunk];
                writableEnded := true |}
             (invoked w)).

(** The behaviour of a handler on (request, response): the response it
    leaves behind and, when it throws, the thrown value.  Its return value
    (void or a promise) is dropped by every caller in the source. *)
Definition behaviour (handler exn : Type) : Type :=
  handler -> IncomingMessage -> ServerResponse -> option exn * ServerResponse.

(** [routeHandler(req, res)] *)
Definition call {handler exn} (run : behaviour handler exn)
    (h : handler) (req : IncomingMessage) : Eff handler exn unit :=
  fun w =>
    let (thrown_value, res') := run h req (response w) in
    (match thrown_value with
     | None => Normal tt
     | Some e => Abrupt (Raised e)
     end,
     mkWorld res' (invoked w ++ [h])).

(* ------------------------------------------------------------------ *)
(** ** [ServerRoutesMap] and property access on it *)

Record ServerRoutesMap (handler : Type) : Type := mkRoutes {
  GET : gmap string handler;
  POST : gmap string handler;
  PUT : gmap string handler;
  DELETE : gmap string handler
}.
Arguments mkRoutes {handler} GET POST PUT DELETE.
Arguments GET {handler} s.
Arguments POST {handler} s.
Arguments PUT {handler} s.
Arguments DELETE {handler} s.

(** The value of [routes[key]]: one of the four own tables, a member
    inherited from [Object.prototype], or [undefined]. *)
Inductive property (handler : Type) : Type :=
| Table (t : gmap string handler)
| Inherited (name : string)
| Undefined.
Arguments Table {handler} t.
Arguments Inherited {handler} name.
Arguments Undefined {handler}.

(** [routes[key]], with [key : string | undefined]. *)
Definition routes_at {handler} (routes : ServerRoutesMap handler)
    (key : option string) : property handler :=
  match key with
  | None => Undefined
  | Some k =>
      if String.eqb k "GET" then Table (GET routes)
      else if String.eqb k "POST" then Table (POST routes)
      else if String.eqb k "PUT" then Table (PUT routes)
      else if String.eqb k "DELETE" then Table (DELETE routes)
      else if existsb (String.eqb k) JS.Object_prototype_names then Inherited k
      else Undefined
  end.

(** [p?.[path]].  Used only at keys that start with a slash, where neither
    [Object.prototype] nor any of its members has a property. *)
Definition optional_at {handler} (p : property handler) (path : string)
    : option handler :=
  match p with
  | Table t => t !! path
  | Inherited _ => None
  | Undefined => None
  end.

(** [p[path]]: reading a property of [undefined] throws. *)
Definition strict_at {handler exn} (p : property handler) (path : string)
    : completion exn (option handler) :=
  match p with
  | Table t => Normal (t !! path)
  | Inherited _ => Normal None
  | Undefined => Abrupt (TypeError "Cannot read properties of undefined")
  end.

Definition empty_routes {handler} : ServerRoutesMap handler :=
  mkRoutes ∅ ∅ ∅ ∅.

Definition Route_not_found : JSON.value :=
  JSON.Obj [("error", JSON.Str "Route not found")].

Definition Method_not_allowed : JSON.value :=
  JSON.Obj [("error", JSON.Str "Method not allowed")].

(* ------------------------------------------------------------------ *)
(** ** class SuppressController *)

Module SuppressController.

Record t (handler : Type) : Type := mk { routes : ServerRoutesMap handler }.
Arguments mk {handler} routes.
Arguments routes {handler} _.

(** [new SuppressController()] *)
Definition new {handler} : t handler := mk empty_routes.

Section Methods.
Context {handler exn : Type}.

(** [this.routes.GET[path] = handler] *)
Definition get (this : t handler) (path : string) (h : handler) : t handler :=
  mk (mkRoutes (<[path := h]> (GET (routes this))) (POST (routes this))
               (PUT (routes this)) (DELETE (routes this))).

Definition post (this : t handler) (path : string) (h : handler) : t handler :=
  mk (mkRoutes (GET (routes this)) (<[path := h]> (POST (routes this)))
               (PUT (routes this)) (DELETE (routes this))).

Definition put (this : t handler) (path : string) (h : handler) : t handler :=
  mk (mkRoutes (GET (routes this)) (POST (routes this))
               (<[path := h]> (PUT (routes this))) (DELETE (routes this))).

Definition delete (this : t handler) (path : string) (h : handler) : t handler :=
  mk (mkRoutes (GET (routes this)) (POST (routes this))
               (PUT (routes this)) (<[path := h]> (DELETE (routes this)))).

(** Lines 145-150 of [handleRequest]: the path that is looked up. *)
Definition effectivePath (req : IncomingMessage) (basePath : string) : string :=
  let path :=
    JS.or_else (option_map (fun u => JS.replace u basePath "") (url req)) "/" in
  if negb (JS.startsWith path "/") then "/" +:+ path else path.

(** Line 152: [this.routes[method]?.[path]]. *)
Definition routeHandler (this : t handler) (req : IncomingMessage)
    (basePath : string) : option handler :=
  optional_at (routes_at (routes this) (method req)) (effectivePath req basePath).

Definition handleRequest (run : behaviour handler exn) (this : t handler)
    (req : IncomingMessage) (basePath : string) : Eff handler exn unit :=
  match routeHandler this req basePath with
  | Some h => call run h req
  | None =>
      set_statusCode HttpStatusCode.NOT_FOUND ;;
      res_end (JSON.stringify Route_not_found)
  end.

End Methods.
End SuppressController.

(* ------------------------------------------------------------------ *)
(** ** class Suppress extends SuppressController *)

Module Suppress.

(** [super] holds the inherited [routes] field; [controllers] is the
    [Map<string, SuppressController>].  The [server] field only carries
    the request callback, which is [requestListener] below. *)
Record t (handler : Type) : Type := mk {
  super : SuppressController.t handler;
  controllers : gmap string (SuppressController.t handler)
}.
Arguments mk {handler} super controllers.
Arguments super {handler} _.
Arguments controllers {handler} _.

Definition new {handler} : t handler := mk SuppressController.new ∅.

Section Methods.
Context {handler exn : Type}.

(** Inherited registration methods, acting on the embedded root table. *)
Definition get (this : t handler) (path : string) (h : handler) : t handler :=
  mk (SuppressController.get (super this) path h) (controllers this).
Definition post (this : t handler) (path : string) (h : handler) : t handler :=
  mk (SuppressController.post (super this) path h) (controllers this).
Definition put (this : t handler) (path : string) (h : handler) : t handler :=
  mk (SuppressController.put (super this) path h) (controllers this).
Definition delete (this : t handler) (path : string) (h : handler) : t handler :=
  mk (SuppressController.delete (super this) path h) (controllers this).

(** [this.controllers.set(basePath, controller)] *)
Definition addController (this : t handler) (basePath : string)
    (controller : SuppressController.t handler) : t handler :=
  mk (super this) (<[basePath := controller]> (controllers this)).

(** Lines 220-221 of [handleRootRequest]. *)
Definition segments (path : string) : list string :=
  JS.filter_Boolean (JS.split path "/"%char).

Definition basePath (path : string) : string :=
  match segments path with
  | first :: _ => "/" +:+ first
  | [] => "/"
  end.

Definition handleRootRequest (run : behaviour handler exn) (this : t handler)
    (req : IncomingMessage) : Eff handler exn unit :=
  let path := JS.or_else (url req) "/" in
  if negb (JS.includes HttpMethods.all (method req)) then
    set_statusCode HttpStatusCode.METHOD_NOT_ALLOWED ;;
    res_end (JSON.stringify Method_not_allowed)
  else
    match controllers this !! basePath path with
    | Some controller =>
        SuppressController.handleRequest run controller req (basePath path)
    | None =>
        SuppressController.handleRequest run (super this) req "/"
    end.

(** The callback given to [createServer] in the constructor. *)
Definition requestListener (run : behaviour handler exn) (this : t handler)
    (req : IncomingMessage) : Eff handler exn unit :=
  handleRootRequest run this req.

End Methods.
End Suppress.

(* ------------------------------------------------------------------ *)
(** ** Vocabulary of the properties *)

#[global] Instance HttpMethods_eq_dec : EqDecision HttpMethods.t.
Proof. solve_decision. Defined.

(** The route map of one of the four methods. *)
Definition table {handler} (routes : ServerRoutesMap handler)
    (m : HttpMethods.t) : gmap string handler :=
  match m with
  | HttpMethods.GET => GET routes
  | HttpMethods.POST => POST routes
  | HttpMethods.PUT => PUT routes
  | HttpMethods.DELETE => DELETE routes
  end.

(** The registration call of method [m]: [get], [post], [put] or [delete]. *)
Definition register {handler} (this : SuppressController.t handler)
    (m : HttpMethods.t) (path : string) (h : handler)
    : SuppressController.t handler :=
  match m with
  | HttpMethods.GET => SuppressController.get this path h
  | HttpMethods.POST => SuppressController.post this path h
  | HttpMethods.PUT => SuppressController.put this path h
  | HttpMethods.DELETE => SuppressController.delete this path h
  end.

(** A setup phase: registration calls, performed from left to right. *)
Definition register_all {handler} (this : SuppressController.t handler)
    (regs : list (HttpMethods.t * string * handler))
    : SuppressController.t handler :=
  fold_left (fun acc r => register acc r.1.1 r.1.2 r.2) regs this.

(** The handler of the last call in [regs] made for the pair [(m, path)]. *)
Fixpoint most_recent {handler} (regs : list (HttpMethods.t * string * handler))
    (m : HttpMethods.t) (path : string) : option handler :=
  match regs with
  | [] => None
  | r :: rest =>
      match most_recent rest m path with
      | Some h => Some h
      | None =>
          if decide (r.1.1 = m /\ r.1.2 = path) then Some r.2 else None
      end
  end.

(** The response after the router has answered by itself with [status]
    and the JSON [payload]. *)
Definition replied (status : Z) (payload : JSON.value) (r : ServerResponse)
    : ServerResponse :=
  {| statusCode := status;
     body := body r ++ [JSON.stringify payload];
     writableEnded := true |}.

(** The outcome of a callback in which the router answers by itself:
    normal completion, the response written, no handler called. *)
Definition not_found {handler exn} (w : World handler)
    : completion exn unit * World handler :=
  (Normal tt,
   mkWorld (replied 404 Route_not_found (response w)) (invoked w)).

Definition method_not_allowed {handler exn} (w : World handler)
    : completion exn unit * World handler :=
  (Normal tt,
   mkWorld (replied 405 Method_not_allowed (response w)) (invoked w)).

(** The text [{"error":"<msg>"}], as it goes on the wire. *)
Definition json_error_text (msg : string) : string :=
  let q := String JSON.dquote EmptyString in
  "{" +:+ q +:+ "error" +:+ q +:+ ":" +:+ q +:+ msg +:+ q +:+ "}".

(** "Prepends a slash if the result does not start with one"; the empty
    result becomes the root path. *)
Definition with_leading_slash (s : string) : string :=
  match s with
  | String "/" _ => s
  | _ => "/" +:+ s
  end.

(** The claim's reading of the prefix stripping: remove [basePath] when it
    is a leading prefix of [u], leave [u] unchanged otherwise. *)
Definition strip_leading (u basePath : string) : string :=
  if String.prefix basePath u then JS.slice (String.length basePath) u else u.

(** [pat] occurs in [s] at index [i]. *)
Definition occurs_at (pat s : string) (i : nat) : bool :=
  String.prefix pat (JS.slice i s).

(** A path segment: non-empty and free of slashes. *)
Fixpoint slash_free (s : string) : bool :=
  match s with
  | EmptyString => true
  | String c s' => negb (Ascii.eqb c "/") && slash_free s'
  end.

Definition is_segment (s : string) : bool := JS.Boolean s && slash_free s.

(** The path [/x1/x2/.../xn]. *)
Fixpoint path_of_segments (xs : list string) : string :=
  match xs with
  | [] => EmptyString
  | x :: rest => "/" +:+ x +:+ path_of_segments rest
  end.

(** The route table a recognised request is forwarded to, with the base
    path it is asked to strip (lines 224-229 of [handleRootRequest]). *)
Definition selected {handler} (app : Suppress.t handler) (req : IncomingMessage)
    : SuppressController.t handler * string :=
  let bp := Suppress.basePath (JS.or_else (url req) "/") in
  match Suppress.controllers app !! bp with
  | Some controller => (controller, bp)
  | None => (Suppress.super app, "/")
  end.

(** The registration call of method [m] made on the dispatcher itself
    (the methods it inherits from [SuppressController]). *)
Definition register_root {handler} (app : Suppress.t handler)
    (m : HttpMethods.t) (path : string) (h : handler) : Suppress.t handler :=
  match m with
  | HttpMethods.GET => Suppress.get app path h
  | HttpMethods.POST => Suppress.post app path h
  | HttpMethods.PUT => Suppress.put app path h
  | HttpMethods.DELETE => Suppress.delete app path h
  end.

(** A string made of slashes only (also the empty string). *)
Fixpoint all_slashes (s : string) : bool :=
  match s with
  | EmptyString => true
  | String c s' => Ascii.eqb c "/" && all_slashes s'
  end.

(** The keys under which a controller can be found by the dispatcher: the
    root [/], or a slash followed by exactly one segment. *)
Definition is_mount_key (b : string) : bool :=
  match b with
  | String "/" x => String.eqb x "" || is_segment x
  | _ => false
  end.

(* ------------------------------------------------------------------ *)
(** ** The object graph of a dispatcher

    [this.controllers.set(basePath, controller)] stores a reference, and a
    registration mutates the [routes] of the object it is called on.  Here
    objects have identities: [tables] gives the state of each object (an
    identity that is not in the map is a controller on which nothing was
    registered yet), [this] is the dispatcher and [controllers] maps a
    base path to the identity of the mounted object, which may be the
    dispatcher itself.  [Suppress.t] is the [snapshot] of such a graph:
    what a request callback sees while it runs. *)

Module Objects.

Record t (handler : Type) : Type := mk {
  tables : gmap nat (SuppressController.t handler);
  this : nat;
  controllers : gmap string nat
}.
Arguments mk {handler} tables this controllers.
Arguments tables {handler} _.
Arguments this {handler} _.
Arguments controllers {handler} _.

Section Methods.
Context {handler exn : Type}.

(** The state of the object [o]. *)
Definition object (heap : t handler) (o : nat) : SuppressController.t handler :=
  default SuppressController.new (tables heap !! o).

(** [o.get(path, h)], [o.post(path, h)], [o.put(path, h)] or
    [o.delete(path, h)], according to [m]. *)
Definition registerOn (heap : t handler) (o : nat) (m : HttpMethods.t)
    (path : string) (h : handler) : t handler :=
  mk (<[o := register (object heap o) m path h]> (tables heap))
     (this heap) (controllers heap).

(** [this.controllers.set(basePath, controller)] *)
Definition addController (heap : t handler) (basePath : string)
    (controller : nat) : t handler :=
  mk (tables heap) (this heap) (<[basePath := controller]> (controllers heap)).

Definition handleRootRequest (run : behaviour handler exn) (heap : t handler)
    (req : IncomingMessage) : Eff handler exn unit :=
  let path := JS.or_else (url req) "/" in
  if negb (JS.includes HttpMethods.all (method req)) then
    set_statusCode HttpStatusCode.METHOD_NOT_ALLOWED ;;
    res_end (JSON.stringify Method_not_allowed)
  else
    match controllers heap !! Suppress.basePath path with
    | Some controller =>
        SuppressController.handleRequest run (object heap controller) req
          (Suppress.basePath path)
    | None =>
        SuppressController.handleRequest run (object heap (this heap)) req "/"
    end.

(** What the dispatcher looks like to a request callback. *)
Definition snapshot (heap : t handler) : Suppress.t handler :=
  Suppress.mk (object heap (this heap)) (object heap <$> controllers heap).

End Methods.
End Objects.

(* ------------------------------------------------------------------ *)
(** ** A concrete application: the scenario of the documentation

    [GET /] at the root, [GET /profile] in a controller mounted at
    [/user], and a handler that throws. *)

Module Demo.

Inductive handler : Type := rootHandler | profileHandler | failingHandler.

Definition run : behaviour handler string :=
  fun h req res =>
    match h with
    | rootHandler =>
        (None, mkRes (statusCode res) (body res ++ ["Hello World!"]) true)
    | profileHandler =>
        (None, mkRes (statusCode res) (body res ++ ["User Profile"]) true)
    | failingHandler => (Some "boom", res)
    end.

Definition userController : SuppressController.t handler :=
  SuppressController.get
    (SuppressController.get SuppressController.new "/profile" profileHandler)
    "/" failingHandler.

Definition app : Suppress.t handler :=
  Suppress.addController
    (Suppress.get Suppress.new "/" rootHandler) "/user" userController.

Definition request (m u : string) : IncomingMessage := mkReq (Some m) (Some u).

Definition world0 : World handler := mkWorld fresh_response [].

End Demo.

(** The dispatcher (object 0) mounted on itself at [/x], and a separate
    controller (object 1) mounted at [/user]. *)
Module DemoObjects.

Definition heap : Objects.t Demo.handler :=
  Objects.addController
    (Objects.addController
       (Objects.registerOn (Objects.mk ∅ 0%nat ∅) 1%nat HttpMethods.GET
          "/profile" Demo.profileHandler)
       "/user" 1%nat)
    "/x" 0%nat.

End DemoObjects.

(* ================================================================== *)
(** * Properties *)

(** ** String primitives *)

Section StringFacts.

Lemma app_nil (s : string) : "" +:+ s = s.
Proof. reflexivity. Qed.

Lemma app_cons (c : ascii) (s t : string) :
  String c s +:+ t = String c (s +:+ t).
Proof. reflexivity. Qed.

Lemma prefix_nil (s : string) : String.prefix "" s = true.
Proof. by destruct s. Qed.

Lemma prefix_cons (a b : ascii) (p s : string) :
  String.prefix (String a p) (String b s) =
  if Ascii.eqb a b then String.prefix p s else false.
Proof.
  simpl. destruct (ascii_dec a b) as [->|Hne].
  - by rewrite Ascii.eqb_refl.
  - apply Ascii.eqb_neq in Hne. by rewrite Hne.
Qed.

Lemma prefix_app (p s : string) : String.prefix p (p +:+ s) = true.
Proof.
  induction p as [|a p IH].
  - apply prefix_nil.
  - by rewrite app_cons, prefix_cons, Ascii.eqb_refl.
Qed.

Lemma slice_0 (s : string) : JS.slice 0 s = s.
Proof. by destruct s. Qed.

Lemma slice_app (p s : string) : JS.slice (String.length p) (p +:+ s) = s.
Proof.
  induction p as [|a p IH]; [reflexivity|].
  rewrite app_cons. simpl. exact IH.
Qed.

Lemma replace_unfold (s pat repl : string) :
  JS.replace s pat repl =
  if String.prefix pat s then repl +:+ JS.slice (String.length pat) s
  else match s with
       | EmptyString => EmptyString
       | String c s' => String c (JS.replace s' pat repl)
       end.
Proof. destruct s; reflexivity. Qed.

(** A leading occurrence is the one that is replaced. *)
Lemma replace_leading (p s repl : string) :
  JS.replace (p +:+ s) p repl = repl +:+ s.
Proof. by rewrite replace_unfold, prefix_app, slice_app. Qed.

(** Without any occurrence the string is returned as it is. *)
Lemma replace_absent (s pat repl : string) :
  (forall i, occurs_at pat s i = false) -> JS.replace s pat repl = s.
Proof.
  induction s as [|c s IH]; intros Hno; rewrite replace_unfold.
  - pose proof (Hno O) as H0. unfold occurs_at in H0.
    rewrite slice_0 in H0. by rewrite H0.
  - pose proof (Hno O) as H0. unfold occurs_at in H0.
    rewrite slice_0 in H0. rewrite H0. f_equal. apply IH. intros i. exact (Hno (S i)).
Qed.

(** The general case: the first occurrence, wherever it is. *)
Lemma replace_first_occurrence (pre pat post repl : string) :
  (forall i, (i < String.length pre)%nat ->
             occurs_at pat (pre +:+ pat +:+ post) i = false) ->
  JS.replace (pre +:+ pat +:+ post) pat repl = pre +:+ repl +:+ post.
Proof.
  induction pre as [|c pre IH]; intros Hfirst.
  - rewrite !app_nil. apply replace_leading.
  - rewrite !app_cons, replace_unfold.
    pose proof (Hfirst O ltac:(simpl; lia)) as H0.
    unfold occurs_at in H0. rewrite app_cons, slice_0 in H0.
    rewrite H0. f_equal.
    apply IH. intros i Hi.
    pose proof (Hfirst (S i) ltac:(simpl; lia)) as HS.
    unfold occurs_at in *. rewrite app_cons in HS. exact HS.
Qed.

Lemma startsWith_slash (s : string) :
  JS.startsWith s "/" = match s with String "/" _ => true | _ => false end.
Proof.
  unfold JS.startsWith. destruct s as [|c s]; [reflexivity|].
  rewrite prefix_cons, prefix_nil.
  destruct c as [[] [] [] [] [] [] [] []]; reflexivity.
Qed.

Lemma with_leading_slash_starts (s : string) :
  JS.startsWith (with_leading_slash s) "/" = true.
Proof.
  rewrite startsWith_slash.
  destruct s as [|c s]; [reflexivity|].
  destruct c as [[] [] [] [] [] [] [] []]; reflexivity.
Qed.

End StringFacts.

(* ------------------------------------------------------------------ *)
(** ** The route table *)

Section RouteTable.
Context {handler exn : Type} (run : behaviour handler exn).

Implicit Types (this : SuppressController.t handler) (req : IncomingMessage).
Implicit Types (w : World handler) (m : HttpMethods.t) (h : handler).

Lemma effectivePath_eq req basePath :
  SuppressController.effectivePath req basePath =
  match url req with
  | None => "/"
  | Some u => with_leading_slash (JS.replace u basePath "")
  end.
Proof.
  unfold SuppressController.effectivePath.
  destruct (url req) as [u|]; [|reflexivity]. cbn [option_map].
  destruct (JS.replace u basePath "") as [|c s]; [reflexivity|].
  unfold JS.or_else, JS.Boolean.
  change (String.eqb (String c s) "") with false. cbn [negb].
  rewrite startsWith_slash.
  destruct c as [[] [] [] [] [] [] [] []]; reflexivity.
Qed.

(** Every key that dispatch looks up starts with a slash. *)
Lemma effectivePath_starts_with_slash req basePath :
  JS.startsWith (SuppressController.effectivePath req basePath) "/" = true.
Proof.
  rewrite effectivePath_eq. destruct (url req); [|reflexivity].
  apply with_leading_slash_starts.
Qed.

Lemma routes_at_method (routes : ServerRoutesMap handler) m :
  routes_at routes (Some (HttpMethods.name m)) = Table (table routes m).
Proof. by destruct m. Qed.

Lemma includes_method m :
  JS.includes HttpMethods.all (Some (HttpMethods.name m)) = true.
Proof. by destruct m. Qed.

Lemma includes_false (key : option string) :
  (forall m, key <> Some (HttpMethods.name m)) ->
  JS.includes HttpMethods.all key = false.
Proof.
  intros Hout. destruct key as [k|]; [|reflexivity].
  unfold JS.includes, HttpMethods.all. simpl.
  destruct (String.eqb_spec k "GET") as [->|_];
    [by destruct (Hout HttpMethods.GET)|].
  destruct (String.eqb_spec k "POST") as [->|_];
    [by destruct (Hout HttpMethods.POST)|].
  destruct (String.eqb_spec k "PUT") as [->|_];
    [by destruct (Hout HttpMethods.PUT)|].
  destruct (String.eqb_spec k "DELETE") as [->|_];
    [by destruct (Hout HttpMethods.DELETE)|].
  reflexivity.
Qed.

Lemma includes_true (key : option string) :
  JS.includes HttpMethods.all key = true ->
  exists m, key = Some (HttpMethods.name m).
Proof.
  destruct key as [k|]; [|discriminate].
  unfold JS.includes, HttpMethods.all. simpl.
  destruct (String.eqb_spec k "GET") as [->|_];
    [by exists HttpMethods.GET|].
  destruct (String.eqb_spec k "POST") as [->|_];
    [by exists HttpMethods.POST|].
  destruct (String.eqb_spec k "PUT") as [->|_];
    [by exists HttpMethods.PUT|].
  destruct (String.eqb_spec k "DELETE") as [->|_];
    [by exists HttpMethods.DELETE|].
  discriminate.
Qed.

(** Outside the four methods no table is reached, and the optional
    chaining turns the missing table into a missing handler. *)
Lemma optional_at_unrecognized (routes : ServerRoutesMap handler)
    (key : option string) (path : string) :
  (forall m, key <> Some (HttpMethods.name m)) ->
  optional_at (routes_at routes key) path = None.
Proof.
  intros Hout. destruct key as [k|]; [|reflexivity].
  unfold routes_at.
  destruct (String.eqb_spec k "GET") as [->|_];
    [by destruct (Hout HttpMethods.GET)|].
  destruct (String.eqb_spec k "POST") as [->|_];
    [by destruct (Hout HttpMethods.POST)|].
  destruct (String.eqb_spec k "PUT") as [->|_];
    [by destruct (Hout HttpMethods.PUT)|].
  destruct (String.eqb_spec k "DELETE") as [->|_];
    [by destruct (Hout HttpMethods.DELETE)|].
  by destruct (existsb _ _).
Qed.

Lemma routeHandler_method this req basePath m :
  method req = Some (HttpMethods.name m) ->
  SuppressController.routeHandler this req basePath =
  table (SuppressController.routes this) m
    !! SuppressController.effectivePath req basePath.
Proof.
  intros Hm. unfold SuppressController.routeHandler.
  by rewrite Hm, routes_at_method.
Qed.

Lemma routeHandler_unrecognized this req basePath :
  (forall m, method req <> Some (HttpMethods.name m)) ->
  SuppressController.routeHandler this req basePath = None.
Proof. intros Hout. by apply optional_at_unrecognized. Qed.

Lemma handleRequest_found this req basePath h w :
  SuppressController.routeHandler this req basePath = Some h ->
  SuppressController.handleRequest run this req basePath w = call run h req w.
Proof. intros Hh. unfold SuppressController.handleRequest. by rewrite Hh. Qed.

Lemma handleRequest_not_found this req basePath w :
  SuppressController.routeHandler this req basePath = None ->
  SuppressController.handleRequest run this req basePath w = not_found w.
Proof. intros Hh. unfold SuppressController.handleRequest. by rewrite Hh. Qed.

Lemma call_invoked h req w :
  invoked (call run h req w).2 = (invoked w ++ [h])%list.
Proof. unfold call. by destruct (run h req (response w)). Qed.

Lemma call_response h req w :
  response (call run h req w).2 = (run h req (response w)).2.
Proof. unfold call. by destruct (run h req (response w)). Qed.

Lemma table_register this m path h m' path' :
  table (SuppressController.routes (register this m path h)) m' !! path' =
  if decide (m = m' /\ path = path') then Some h
  else table (SuppressController.routes this) m' !! path'.
Proof.
  destruct (decide (m = m' /\ path = path')) as [[-> ->]|Hne].
  - destruct m'; simpl; apply lookup_insert_eq.
  - destruct m, m'; simpl; try reflexivity;
      apply lookup_insert_ne; intros ->; by apply Hne.
Qed.

Lemma table_register_all regs this m path :
  table (SuppressController.routes (register_all this regs)) m !! path =
  match most_recent regs m path with
  | Some h => Some h
  | None => table (SuppressController.routes this) m !! path
  end.
Proof.
  revert this. induction regs as [|r regs IH]; intros this; [reflexivity|].
  change (register_all this (r :: regs))
    with (register_all (register this r.1.1 r.1.2 r.2) regs).
  rewrite IH. simpl. destruct (most_recent regs m path); [reflexivity|].
  rewrite table_register. by destruct (decide _).
Qed.

End RouteTable.

(* ------------------------------------------------------------------ *)
(** ** Path segments *)

Section Segments.

Lemma app_empty_r (s : string) : s +:+ "" = s.
Proof. induction s as [|c s IH]; [reflexivity|]. by rewrite app_cons, IH. Qed.

Lemma split_cons_slash (s : string) :
  JS.split (String "/" s) "/" = "" :: JS.split s "/".
Proof. reflexivity. Qed.

Lemma split_not_nil (s : string) (sep : ascii) : JS.split s sep <> [].
Proof.
  destruct s as [|c s]; simpl; [discriminate|].
  destruct (Ascii.eqb c sep); [discriminate|].
  destruct (JS.split s sep); discriminate.
Qed.

(** No piece of a split contains the separator. *)
Lemma split_slash_free (s : string) :
  Forall (fun x => slash_free x = true) (JS.split s "/").
Proof.
  induction s as [|c s IH]; simpl.
  - by constructor.
  - destruct (Ascii.eqb c "/") eqn:Hc.
    + by constructor.
    + destruct (JS.split s "/") as [|x xs]; constructor;
        simpl; try rewrite Hc; simpl; try done.
      * by inversion IH.
      * by inversion IH.
Qed.

(** A slash-free string in front of [t] joins the first piece of [t]. *)
Lemma split_app_slash_free (x t : string) :
  slash_free x = true ->
  JS.split (x +:+ t) "/" =
  match JS.split t "/" with
  | piece :: pieces => (x +:+ piece) :: pieces
  | [] => [x]
  end.
Proof.
  induction x as [|c x IH]; intros Hx.
  - rewrite app_nil. destruct (JS.split t "/") eqn:Ht; [|reflexivity].
    by destruct (split_not_nil t "/").
  - simpl in Hx. apply andb_true_iff in Hx as [Hc Hx].
    apply negb_true_iff in Hc.
    rewrite app_cons. simpl. rewrite Hc, (IH Hx).
    destruct (JS.split t "/") as [|piece pieces] eqn:Ht; [|reflexivity].
    by destruct (split_not_nil t "/").
Qed.

Lemma split_path_of_segments (xs : list string) :
  Forall (fun x => is_segment x = true) xs ->
  JS.split (path_of_segments xs) "/" = "" :: xs.
Proof.
  induction 1 as [|x xs Hx _ IH]; [reflexivity|].
  apply andb_true_iff in Hx as [_ Hx].
  simpl path_of_segments. rewrite app_cons, app_nil, split_cons_slash.
  by rewrite (split_app_slash_free _ _ Hx), IH, app_empty_r.
Qed.

Lemma filter_Boolean_segments (xs : list string) :
  Forall (fun x => is_segment x = true) xs -> JS.filter_Boolean xs = xs.
Proof.
  induction 1 as [|x xs Hx _ IH]; [reflexivity|].
  apply andb_true_iff in Hx as [Hne _].
  unfold JS.filter_Boolean in *. simpl. by rewrite Hne, IH.
Qed.

(** The segments of a request path are non-empty and slash-free ... *)
Lemma segments_are_segments (path : string) :
  Forall (fun x => is_segment x = true) (Suppress.segments path).
Proof.
  unfold Suppress.segments, JS.filter_Boolean.
  induction (split_slash_free path) as [|x xs Hx _ IH]; simpl; [constructor|].
  destruct (JS.Boolean x) eqn:Hb; [|exact IH].
  constructor; [|exact IH]. unfold is_segment. by rewrite Hb, Hx.
Qed.

(** ... and they are the segments the path was written with. *)
Lemma segments_path_of_segments (xs : list string) :
  Forall (fun x => is_segment x = true) xs ->
  Suppress.segments (path_of_segments xs) = xs.
Proof.
  intros Hxs. unfold Suppress.segments.
  rewrite (split_path_of_segments _ Hxs).
  exact (filter_Boolean_segments _ Hxs).
Qed.

Lemma basePath_path_of_segments (x : string) (xs : list string) :
  Forall (fun x => is_segment x = true) (x :: xs) ->
  Suppress.basePath (path_of_segments (x :: xs)) = "/" +:+ x.
Proof.
  intros Hxs. unfold Suppress.basePath.
  by rewrite (segments_path_of_segments _ Hxs).
Qed.

Lemma basePath_single (x : string) :
  is_segment x = true -> Suppress.basePath ("/" +:+ x) = "/" +:+ x.
Proof.
  intros Hx.
  assert (Forall (fun x => is_segment x = true) [x]) as Hxs
    by (constructor; [exact Hx|constructor]).
  pose proof (basePath_path_of_segments x [] Hxs) as Hb.
  simpl path_of_segments in Hb. by rewrite app_empty_r in Hb.
Qed.

Lemma split_app_sep (a b : string) :
  JS.split (a +:+ String "/" b) "/" = (JS.split a "/" ++ JS.split b "/")%list.
Proof.
  induction a as [|c a IH]; [reflexivity|].
  rewrite app_cons. simpl. rewrite IH.
  destruct (Ascii.eqb c "/"); [reflexivity|].
  destruct (JS.split a "/") as [|piece pieces] eqn:Ha; [|reflexivity].
  by destruct (split_not_nil a "/").
Qed.

Lemma segments_app_sep (a b : string) :
  Suppress.segments (a +:+ String "/" b)
  = (Suppress.segments a ++ Suppress.segments b)%list.
Proof.
  unfold Suppress.segments, JS.filter_Boolean.
  by rewrite split_app_sep, List.filter_app.
Qed.

Lemma segments_segment (x : string) :
  is_segment x = true -> Suppress.segments x = [x].
Proof.
  intros Hx. pose proof Hx as Hboth.
  apply andb_true_iff in Hboth as [Hne Hfree].
  unfold Suppress.segments.
  rewrite <- (app_empty_r x) at 1.
  rewrite (split_app_slash_free _ _ Hfree). simpl JS.split. cbv iota.
  rewrite app_empty_r. unfold JS.filter_Boolean. simpl. by rewrite Hne.
Qed.

Lemma segments_empty : Suppress.segments "" = [].
Proof. reflexivity. Qed.

Lemma segments_all_slashes (p : string) :
  all_slashes p = true -> Suppress.segments p = [].
Proof.
  induction p as [|c p IH]; intros Hp; [reflexivity|].
  simpl in Hp. apply andb_true_iff in Hp as [Hc Hp].
  apply Ascii.eqb_eq in Hc as ->.
  change (String "/" p) with ("" +:+ String "/" p).
  by rewrite segments_app_sep, (IH Hp).
Qed.

Lemma segments_after_slashes (pre s : string) :
  all_slashes pre = true ->
  Suppress.segments (pre +:+ s) = Suppress.segments s.
Proof.
  induction pre as [|c pre IH]; intros Hp; [reflexivity|].
  simpl in Hp. apply andb_true_iff in Hp as [Hc Hp].
  apply Ascii.eqb_eq in Hc as ->.
  change (String "/" pre +:+ s) with ("" +:+ String "/" (pre +:+ s)).
  by rewrite segments_app_sep, (IH Hp).
Qed.

(** The base path of a path that is nothing but slashes. *)
Lemma basePath_all_slashes (p : string) :
  all_slashes p = true -> Suppress.basePath p = "/".
Proof.
  intros Hp. unfold Suppress.basePath. by rewrite (segments_all_slashes _ Hp).
Qed.

(** The base path of a path whose first segment is [x]. *)
Lemma basePath_first_segment (pre x rest : string) :
  all_slashes pre = true ->
  is_segment x = true ->
  rest = "" \/ (exists r, rest = String "/" r) ->
  Suppress.basePath (pre +:+ x +:+ rest) = "/" +:+ x.
Proof.
  intros Hpre Hx Hrest. unfold Suppress.basePath.
  rewrite (segments_after_slashes _ _ Hpre).
  destruct Hrest as [-> | [r ->]].
  - by rewrite app_empty_r, (segments_segment _ Hx).
  - by rewrite segments_app_sep, (segments_segment _ Hx).
Qed.

Lemma slash_free_prefix (p : string) :
  exists x rest,
    slash_free x = true /\ p = x +:+ rest /\
    (rest = "" \/ exists r, rest = String "/" r).
Proof.
  induction p as [|c p (x & rest & Hx & Hp & Hrest)].
  - exists "", "". split; [reflexivity|]. split; [reflexivity|by left].
  - destruct (Ascii.eqb c "/") eqn:Hc.
    + apply Ascii.eqb_eq in Hc as ->.
      exists "", (String "/" p). split; [reflexivity|].
      split; [reflexivity|]. right. by exists p.
    + exists (String c x), rest. split; [simpl; by rewrite Hc, Hx|].
      split; [by rewrite app_cons, <- Hp|exact Hrest].
Qed.

(** Every path is either nothing but slashes, or slashes, a first segment,
    and a rest that is empty or starts with a slash. *)
Lemma path_shape (p : string) :
  all_slashes p = true \/
  exists pre x rest,
    all_slashes pre = true /\ is_segment x = true /\
    (rest = "" \/ exists r, rest = String "/" r) /\
    p = pre +:+ x +:+ rest.
Proof.
  induction p as [|c p IH]; [by left|].
  destruct (Ascii.eqb c "/") eqn:Hc.
  - apply Ascii.eqb_eq in Hc as ->.
    destruct IH as [Hall | (pre & x & rest & Hpre & Hx & Hrest & ->)].
    + left. simpl. exact Hall.
    + right. exists (String "/" pre), x, rest.
      split; [simpl; exact Hpre|]. split; [exact Hx|].
      split; [exact Hrest|reflexivity].
  - right. destruct (slash_free_prefix p) as (x & rest & Hx & -> & Hrest).
    exists "", (String c x), rest. split; [reflexivity|].
    split; [unfold is_segment; simpl; by rewrite Hc, Hx|].
    by split.
Qed.

Lemma basePath_root : Suppress.basePath "/" = "/".
Proof. reflexivity. Qed.

End Segments.

(* ------------------------------------------------------------------ *)
(** ** The dispatcher *)

Section Dispatcher.
Context {handler exn : Type} (run : behaviour handler exn).

Implicit Types (app : Suppress.t handler) (req : IncomingMessage).
Implicit Types (w : World handler) (m : HttpMethods.t) (h : handler).

Lemma handleRootRequest_unrecognized app req w :
  JS.includes HttpMethods.all (method req) = false ->
  Suppress.handleRootRequest run app req w = method_not_allowed w.
Proof. intros Hm. unfold Suppress.handleRootRequest. by rewrite Hm. Qed.

Lemma handleRootRequest_recognized app req :
  JS.includes HttpMethods.all (method req) = true ->
  Suppress.handleRootRequest run app req =
  SuppressController.handleRequest run (selected app req).1 req
    (selected app req).2.
Proof.
  intros Hm. unfold Suppress.handleRootRequest, selected. rewrite Hm. simpl.
  by destruct (Suppress.controllers app !! _).
Qed.

End Dispatcher.

(* ------------------------------------------------------------------ *)
(** ** The router's contract *)

Section Contract.
Context {handler exn : Type} (run : behaviour handler exn).

Implicit Types (this : SuppressController.t handler) (app : Suppress.t handler).
Implicit Types (req : IncomingMessage) (w : World handler).
Implicit Types (m : HttpMethods.t) (h : handler).

Lemma not_found_fields w :
  let out := @not_found handler exn w in
  out.1 = Normal tt /\
  statusCode (response out.2) = 404 /\
  body (response out.2) = (body (response w) ++ [json_error_text "Route not found"])%list /\
  writableEnded (response out.2) = true /\
  invoked out.2 = invoked w.
Proof. by repeat split. Qed.

Lemma method_not_allowed_fields w :
  let out := @method_not_allowed handler exn w in
  out.1 = Normal tt /\
  statusCode (response out.2) = 405 /\
  body (response out.2) = (body (response w) ++ [json_error_text "Method not allowed"])%list /\
  writableEnded (response out.2) = true /\
  invoked out.2 = invoked w.
Proof. by repeat split. Qed.

Lemma call_is_not_not_found h req w : call run h req w <> not_found w.
Proof.
  intros Heq. pose proof (call_invoked run h req w) as Hinv.
  rewrite Heq in Hinv. simpl in Hinv.
  apply (f_equal length) in Hinv. rewrite length_app in Hinv. simpl in Hinv. lia.
Qed.

(** C1. Once a handler is the last one registered for (method, path), a
    request with that method whose effective path is that path calls this
    handler and only it: the callback is the handler call, the call log
    grows by this handler alone, the response is what the handler left,
    and the router's own 404 answer is not produced. *)
Theorem C1_registered_route_invokes_its_handler
    this (regs : list (HttpMethods.t * string * handler))
    m path h req basePath w :
  most_recent regs m path = Some h ->
  method req = Some (HttpMethods.name m) ->
  SuppressController.effectivePath req basePath = path ->
  let out :=
    SuppressController.handleRequest run (register_all this regs) req basePath w in
  out = call run h req w /\
  invoked out.2 = (invoked w ++ [h])%list /\
  response out.2 = (run h req (response w)).2 /\
  out <> not_found w.
Proof.
  intros Hreg Hm Hpath out.
  assert (out = call run h req w) as Hout.
  { apply handleRequest_found.
    rewrite (routeHandler_method _ _ _ m Hm), Hpath, table_register_all.
    by rewrite Hreg. }
  rewrite Hout. repeat split.
  - apply call_invoked.
  - apply call_response.
  - apply call_is_not_not_found.
Qed.

(** C2. A request whose method is none of GET, POST, PUT, DELETE is
    answered by the dispatcher with status 405 and the body
    [{"error":"Method not allowed"}]; no handler is called and the answer
    is the same whatever routes and controllers are registered.  The route
    table has no such check: called directly with that request it gives
    its 404 answer. *)
Theorem C2_unrecognized_method_is_405 app req w :
  (forall m, method req <> Some (HttpMethods.name m)) ->
  let out := Suppress.handleRootRequest run app req w in
  out.1 = Normal tt /\
  statusCode (response out.2) = 405 /\
  body (response out.2) =
    (body (response w) ++ [json_error_text "Method not allowed"])%list /\
  writableEnded (response out.2) = true /\
  invoked out.2 = invoked w /\
  (forall app', Suppress.handleRootRequest run app' req w = out) /\
  (forall this basePath,
     SuppressController.handleRequest run this req basePath w = not_found w).
Proof.
  intros Hout out.
  assert (forall app', Suppress.handleRootRequest run app' req w
                       = method_not_allowed w) as H405.
  { intros app'. apply handleRootRequest_unrecognized.
    by apply includes_false. }
  subst out. rewrite (H405 app).
  repeat split; try apply H405.
  intros this basePath. apply handleRequest_not_found.
  by apply routeHandler_unrecognized.
Qed.

(** C3. With a recognised method and an effective path that is not
    registered under it in the route table that is consulted, the callback
    sets status 404, writes [{"error":"Route not found"}], ends the
    response and calls no handler; both for a route table called directly
    and for the table the dispatcher selects. *)
Theorem C3_unregistered_path_is_404 this app req basePath m w :
  method req = Some (HttpMethods.name m) ->
  (table (SuppressController.routes this) m
     !! SuppressController.effectivePath req basePath = None ->
   SuppressController.handleRequest run this req basePath w = not_found w) /\
  (table (SuppressController.routes (selected app req).1) m
     !! SuppressController.effectivePath req (selected app req).2 = None ->
   Suppress.handleRootRequest run app req w = not_found w) /\
  (let out := @not_found handler exn w in
   out.1 = Normal tt /\
   statusCode (response out.2) = 404 /\
   body (response out.2) =
     (body (response w) ++ [json_error_text "Route not found"])%list /\
   writableEnded (response out.2) = true /\
   invoked out.2 = invoked w).
Proof.
  intros Hm. split; [|split].
  - intros Hnone. apply handleRequest_not_found.
    by rewrite (routeHandler_method _ _ _ m Hm).
  - intros Hnone. rewrite handleRootRequest_recognized
      by (rewrite Hm; apply includes_method).
    apply handleRequest_not_found.
    by rewrite (routeHandler_method _ _ _ m Hm).
  - apply not_found_fields.
Qed.

(** C5. For a recognised method the dispatcher takes the non-empty
    slash-delimited segments of the request path ([/] when the url is
    absent or empty), forms the base path from the first one ([/] when
    there is none), and forwards the request to the controller registered
    for exactly that base path, asking it to strip that base path; when
    there is none it forwards to its own root table with [/].

    The segments are fixed for every path: slashes only separate, a
    slash-free non-empty string is its own single segment, the empty
    string has none.  So the base path is [/] for a path made of slashes
    only, and a slash and the first segment for every other path, in
    whatever way slashes are repeated around it. *)
Theorem C5_dispatcher_forwards_by_first_segment app req m :
  method req = Some (HttpMethods.name m) ->
  let path := JS.or_else (url req) "/" in
  Forall (fun x => is_segment x = true) (Suppress.segments path) /\
  (forall xs, Forall (fun x => is_segment x = true) xs ->
              Suppress.segments (path_of_segments xs) = xs) /\
  Suppress.basePath path =
    match Suppress.segments path with
    | first :: _ => "/" +:+ first
    | [] => "/"
    end /\
  (forall controller,
     Suppress.controllers app !! Suppress.basePath path = Some controller ->
     Suppress.handleRootRequest run app req =
     SuppressController.handleRequest run controller req (Suppress.basePath path)) /\
  (Suppress.controllers app !! Suppress.basePath path = None ->
   Suppress.handleRootRequest run app req =
   SuppressController.handleRequest run (Suppress.super app) req "/") /\
  (forall a b,
     Suppress.segments (a +:+ "/" +:+ b)
     = (Suppress.segments a ++ Suppress.segments b)%list) /\
  (forall x, is_segment x = true -> Suppress.segments x = [x]) /\
  Suppress.segments "" = [] /\
  (all_slashes path = true -> Suppress.basePath path = "/") /\
  (forall pre x rest,
     all_slashes pre = true ->
     is_segment x = true ->
     rest = "" \/ (exists r, rest = String "/" r) ->
     path = pre +:+ x +:+ rest ->
     Suppress.basePath path = "/" +:+ x) /\
  (all_slashes path = true \/
   exists pre x rest,
     all_slashes pre = true /\ is_segment x = true /\
     (rest = "" \/ exists r, rest = String "/" r) /\
     path = pre +:+ x +:+ rest).
Proof.
  intros Hm path.
  assert (JS.includes HttpMethods.all (method req) = true) as Hin
    by (rewrite Hm; apply includes_method).
  split; [apply segments_are_segments|].
  split; [apply segments_path_of_segments|].
  split; [reflexivity|].
  split.
  { intros controller Hc. rewrite (handleRootRequest_recognized _ _ _ Hin).
    unfold selected. fold path. by rewrite Hc. }
  split.
  { intros Hc. rewrite (handleRootRequest_recognized _ _ _ Hin).
    unfold selected. fold path. by rewrite Hc. }
  split; [exact segments_app_sep|].
  split; [exact segments_segment|].
  split; [exact segments_empty|].
  split; [apply basePath_all_slashes|].
  split; [|apply path_shape].
  intros pre x rest Hpre Hx Hrest ->. by apply basePath_first_segment.
Qed.

Lemma register_twice this m path h_old h_new :
  register (register this m path h_old) m path h_new
  = register this m path h_new.
Proof.
  destruct this as [[g p u d]]. destruct m; simpl;
    unfold SuppressController.get, SuppressController.post,
      SuppressController.put, SuppressController.delete; simpl;
    by rewrite insert_insert_eq.
Qed.

Lemma addController_twice app basePath
    (c_old c_new : SuppressController.t handler) :
  Suppress.addController (Suppress.addController app basePath c_old)
    basePath c_new
  = Suppress.addController app basePath c_new.
Proof.
  unfold Suppress.addController. simpl. by rewrite insert_insert_eq.
Qed.

(** C6. Registering a handler for a pair that already has one replaces
    it: the table is the one the second registration alone would give,
    and every later request matching the pair (also after registrations
    for other pairs) calls the new handler and nothing else, so not the
    old one.  Registering a controller for a base path that already has
    one replaces it in the same way, and recognised requests with that
    base path go to the new controller. *)
Theorem C6_reregistration_replaces
    this app m path h_old h_new basePath
    (c_old c_new : SuppressController.t handler) :
  let this' := register (register this m path h_old) m path h_new in
  let app' :=
    Suppress.addController (Suppress.addController app basePath c_old)
      basePath c_new in
  this' = register this m path h_new /\
  (forall (later : list (HttpMethods.t * string * handler)) req strip w,
     most_recent later m path = None ->
     method req = Some (HttpMethods.name m) ->
     SuppressController.effectivePath req strip = path ->
     let out :=
       SuppressController.handleRequest run (register_all this' later)
         req strip w in
     out = call run h_new req w /\
     invoked out.2 = (invoked w ++ [h_new])%list /\
     (h_old <> h_new ->
      h_old ∉ drop (length (invoked w)) (invoked out.2))) /\
  app' = Suppress.addController app basePath c_new /\
  Suppress.controllers app' !! basePath = Some c_new /\
  (forall req,
     JS.includes HttpMethods.all (method req) = true ->
     Suppress.basePath (JS.or_else (url req) "/") = basePath ->
     Suppress.handleRootRequest run app' req =
     SuppressController.handleRequest run c_new req basePath).
Proof.
  intros this' app'. split; [apply register_twice|]. split; [|split; [|split]].
  - intros later req strip w Hlater Hm Hpath out.
    assert (out = call run h_new req w) as Hout.
    { apply handleRequest_found.
      rewrite (routeHandler_method _ _ _ m Hm), Hpath, table_register_all, Hlater.
      subst this'. rewrite table_register. by rewrite decide_True. }
    rewrite Hout, call_invoked. repeat split.
    intros Hne. rewrite drop_app_length.
    intros Hin%list_elem_of_singleton. by apply Hne.
  - apply addController_twice.
  - subst app'. simpl. apply lookup_insert_eq.
  - intros req Hin Hbp. rewrite (handleRootRequest_recognized _ _ _ Hin).
    unfold selected. rewrite Hbp. subst app'. simpl.
    by rewrite lookup_insert_eq.
Qed.

(** C7. When the handler that a request resolves to throws, the route
    table's callback, the dispatcher's callback and the server's request
    listener all complete abruptly with the very value thrown, and the
    response is left as the handler left it: nothing is caught and no
    answer is written in its place. *)
Theorem C7_handler_error_propagates
    this app req basePath h (e : exn) (res' : ServerResponse) w :
  run h req (response w) = (Some e, res') ->
  let failed : completion exn unit * World handler :=
    (Abrupt (Raised e), mkWorld res' (invoked w ++ [h])) in
  (SuppressController.routeHandler this req basePath = Some h ->
   SuppressController.handleRequest run this req basePath w = failed) /\
  (JS.includes HttpMethods.all (method req) = true ->
   SuppressController.routeHandler (selected app req).1 req
     (selected app req).2 = Some h ->
   Suppress.handleRootRequest run app req w = failed /\
   Suppress.requestListener run app req w = failed).
Proof.
  intros Hrun failed.
  assert (call run h req w = failed) as Hcall
    by (unfold call; by rewrite Hrun).
  split.
  - intros Hh. by rewrite (handleRequest_found _ _ _ _ _ _ Hh).
  - intros Hin Hh. unfold Suppress.requestListener.
    rewrite (handleRootRequest_recognized _ _ _ Hin).
    by rewrite (handleRequest_found _ _ _ _ _ _ Hh).
Qed.

(** C8. A request to [/] with a recognised method, when the root table
    has no handler at [/] for that method and no controller is mounted at
    [/], is answered 404 with [{"error":"Route not found"}], not 405. *)
Theorem C8_empty_root_is_404 app m req w :
  method req = Some (HttpMethods.name m) ->
  url req = Some "/" ->
  table (SuppressController.routes (Suppress.super app)) m !! "/" = None ->
  Suppress.controllers app !! "/" = None ->
  let out := Suppress.handleRootRequest run app req w in
  out = not_found w /\
  statusCode (response out.2) = 404 /\
  body (response out.2) =
    (body (response w) ++ [json_error_text "Route not found"])%list /\
  statusCode (response out.2) <> 405.
Proof.
  intros Hm Hurl Hroot Hctl out.
  assert (out = not_found w) as Hout.
  { subst out. rewrite handleRootRequest_recognized
      by (rewrite Hm; apply includes_method).
    unfold selected. rewrite Hurl. simpl JS.or_else.
    rewrite basePath_root, Hctl. simpl.
    apply handleRequest_not_found.
    rewrite (routeHandler_method _ _ _ m Hm), effectivePath_eq, Hurl.
    exact Hroot. }
  rewrite Hout. by repeat split.
Qed.

Lemma effectivePath_of_base req basePath :
  basePath <> "" ->
  url req = Some basePath \/ url req = None \/ url req = Some "" ->
  SuppressController.effectivePath req basePath = "/".
Proof.
  intros Hne Hurl. rewrite effectivePath_eq.
  destruct Hurl as [-> | [-> | ->]]; [|reflexivity|].
  - rewrite <- (app_empty_r basePath) at 1. by rewrite replace_leading.
  - rewrite replace_unfold. by destruct basePath.
Qed.

(** C9. For a non-empty base path, a url equal to the base path, an
    absent url and an empty url all give the effective path [/]; hence a
    handler registered at [/] in a controller mounted at [/x] is called
    for a request to exactly [/x]. *)
Theorem C9_base_path_alone_is_root
    app (c : SuppressController.t handler) m h x req basePath req' w :
  (basePath <> "" ->
   url req = Some basePath \/ url req = None \/ url req = Some "" ->
   SuppressController.effectivePath req basePath = "/") /\
  (is_segment x = true ->
   Suppress.controllers app !! ("/" +:+ x) = Some c ->
   table (SuppressController.routes c) m !! "/" = Some h ->
   method req' = Some (HttpMethods.name m) ->
   url req' = Some ("/" +:+ x) ->
   Suppress.handleRootRequest run app req' w = call run h req' w).
Proof.
  split; [apply effectivePath_of_base|].
  intros Hx Hc Hh Hm Hurl.
  rewrite handleRootRequest_recognized by (rewrite Hm; apply includes_method).
  unfold selected. rewrite Hurl.
  change (JS.or_else (Some ("/" +:+ x)) "/") with ("/" +:+ x).
  rewrite (basePath_single _ Hx), Hc. simpl.
  apply handleRequest_found.
  rewrite (routeHandler_method _ _ _ m Hm).
  rewrite (effectivePath_of_base req' ("/" +:+ x)); [exact Hh|discriminate|by left].
Qed.

(** Plain indexing would throw where the optional chaining does not. *)
Lemma strict_at_unrecognized (routes : ServerRoutesMap handler)
    (path : string) :
  optional_at (routes_at routes (Some "PATCH")) path = None /\
  @strict_at handler exn (routes_at routes (Some "PATCH")) path
  = Abrupt (TypeError "Cannot read properties of undefined").
Proof. by split. Qed.

(** C10. The route lookup of [handleRequest] is total for every method
    value: outside the four methods (also a missing method, or the name of
    an inherited object member) it finds no handler and the callback gives
    the 404 answer; for any request the callback is either that answer or
    the call of a registered handler, and it never completes with a
    [TypeError]. *)
Theorem C10_lookup_is_total this req basePath w :
  let out := SuppressController.handleRequest run this req basePath w in
  ((forall m, method req <> Some (HttpMethods.name m)) ->
   SuppressController.routeHandler this req basePath = None /\
   out = not_found w) /\
  (out = not_found w \/
   exists h, SuppressController.routeHandler this req basePath = Some h /\
             out = call run h req w) /\
  (forall msg, out.1 <> Abrupt (TypeError msg)).
Proof.
  intros out.
  assert (out = not_found w \/
          exists h, SuppressController.routeHandler this req basePath = Some h /\
                    out = call run h req w) as Hcases.
  { destruct (SuppressController.routeHandler this req basePath) as [h|] eqn:Hh.
    - right. exists h. split; [reflexivity|]. by apply handleRequest_found.
    - left. by apply handleRequest_not_found. }
  split; [|split; [exact Hcases|]].
  - intros Hout. split; [by apply routeHandler_unrecognized|].
    apply handleRequest_not_found. by apply routeHandler_unrecognized.
  - intros msg. destruct Hcases as [-> | (h & _ & ->)]; [discriminate|].
    unfold call. destruct (run h req (response w)) as [[e|] r]; discriminate.
Qed.

(** C4 (as amended). The effective path is the url with the first
    occurrence of the base path removed, wherever that occurrence is; a
    leading base path is therefore stripped, and a url in which the base
    path does not occur is left unchanged.  A slash is put in front when
    the result does not start with one.  In particular [/profile] in a
    controller mounted at [/user] is reached by [/user/profile], while
    [/profile] goes to the root table, where it is looked up as
    [/profile]. *)
Theorem C4_effective_path_strips_first_occurrence
    req basePath app (c : SuppressController.t handler) m h w :
  (forall pre post,
     url req = Some (pre +:+ basePath +:+ post) ->
     (forall i, (i < String.length pre)%nat ->
                occurs_at basePath (pre +:+ basePath +:+ post) i = false) ->
     SuppressController.effectivePath req basePath
     = with_leading_slash (pre +:+ post)) /\
  (forall rest,
     url req = Some (basePath +:+ rest) ->
     SuppressController.effectivePath req basePath = with_leading_slash rest) /\
  (forall u,
     url req = Some u ->
     (forall i, occurs_at basePath u i = false) ->
     SuppressController.effectivePath req basePath = with_leading_slash u) /\
  (Suppress.controllers app !! "/user" = Some c ->
   table (SuppressController.routes c) m !! "/profile" = Some h ->
   method req = Some (HttpMethods.name m) ->
   (url req = Some "/user/profile" ->
    Suppress.handleRootRequest run app req w = call run h req w) /\
   (url req = Some "/profile" ->
    Suppress.controllers app !! "/profile" = None ->
    SuppressController.effectivePath req "/" = "/profile" /\
    Suppress.handleRootRequest run app req w =
    SuppressController.handleRequest run (Suppress.super app) req "/" w /\
    (table (SuppressController.routes (Suppress.super app)) m !! "/profile"
       = None ->
     Suppress.handleRootRequest run app req w = not_found w))).
Proof.
  split; [|split; [|split]].
  - intros pre post Hurl Hfirst.
    by rewrite effectivePath_eq, Hurl, replace_first_occurrence.
  - intros rest Hurl.
    by rewrite effectivePath_eq, Hurl, replace_leading.
  - intros u Hurl Hno.
    by rewrite effectivePath_eq, Hurl, replace_absent.
  - intros Hc Hh Hm.
    assert (JS.includes HttpMethods.all (method req) = true) as Hin
      by (rewrite Hm; apply includes_method).
    split.
    + intros Hurl. rewrite (handleRootRequest_recognized _ _ _ Hin).
      unfold selected. rewrite Hurl.
      change (Suppress.basePath (JS.or_else (Some "/user/profile") "/"))
        with "/user".
      rewrite Hc. simpl. apply handleRequest_found.
      rewrite (routeHandler_method _ _ _ m Hm), effectivePath_eq, Hurl.
      exact Hh.
    + intros Hurl Hnone.
      assert (SuppressController.effectivePath req "/" = "/profile") as Hp
        by (by rewrite effectivePath_eq, Hurl).
      assert (Suppress.handleRootRequest run app req w =
              SuppressController.handleRequest run (Suppress.super app) req "/" w)
        as Hroot.
      { rewrite (handleRootRequest_recognized _ _ _ Hin).
        unfold selected. rewrite Hurl.
        change (Suppress.basePath (JS.or_else (Some "/profile") "/"))
          with "/profile".
        by rewrite Hnone. }
      split; [exact Hp|]. split; [exact Hroot|].
      intros Hmiss. rewrite Hroot. apply handleRequest_not_found.
      by rewrite (routeHandler_method _ _ _ m Hm), Hp.
Qed.

End Contract.

(* ------------------------------------------------------------------ *)
(** ** The contract on the documented scenario *)

Lemma C1_witness :
  let regs := [(HttpMethods.GET, "/profile", Demo.rootHandler);
               (HttpMethods.GET, "/profile", Demo.profileHandler)] in
  let req := Demo.request "GET" "/user/profile" in
  most_recent regs HttpMethods.GET "/profile" = Some Demo.profileHandler /\
  method req = Some (HttpMethods.name HttpMethods.GET) /\
  SuppressController.effectivePath req "/user" = "/profile" /\
  SuppressController.handleRequest Demo.run
    (register_all SuppressController.new regs) req "/user" Demo.world0
  = call Demo.run Demo.profileHandler req Demo.world0.
Proof.
  intros regs req. split; [reflexivity|]. split; [reflexivity|].
  split; [reflexivity|].
  exact (proj1 (C1_registered_route_invokes_its_handler Demo.run
                  SuppressController.new regs HttpMethods.GET "/profile"
                  Demo.profileHandler req "/user" Demo.world0
                  eq_refl eq_refl eq_refl)).
Defined.

Lemma C2_witness :
  let req := Demo.request "PATCH" "/" in
  (forall m, method req <> Some (HttpMethods.name m)) /\
  statusCode
    (response (Suppress.handleRootRequest Demo.run Demo.app req Demo.world0).2)
  = 405.
Proof.
  intros req.
  assert (forall m, method req <> Some (HttpMethods.name m)) as Hout
    by (intros []; discriminate).
  split; [exact Hout|].
  exact (proj1 (proj2 (C2_unrecognized_method_is_405 Demo.run Demo.app req
                         Demo.world0 Hout))).
Defined.

Lemma C3_witness :
  let req := Demo.request "GET" "/user/other" in
  method req = Some (HttpMethods.name HttpMethods.GET) /\
  SuppressController.handleRequest Demo.run Demo.userController req "/user"
    Demo.world0 = not_found Demo.world0 /\
  Suppress.handleRootRequest Demo.run Demo.app req Demo.world0
  = not_found Demo.world0.
Proof.
  intros req. split; [reflexivity|].
  pose proof (C3_unregistered_path_is_404 Demo.run Demo.userController
                Demo.app req "/user" HttpMethods.GET Demo.world0 eq_refl)
    as (Htable & Hdispatch & _).
  split; [exact (Htable eq_refl)|exact (Hdispatch eq_refl)].
Defined.

Lemma C5_witness :
  let req := Demo.request "GET" "/user/profile" in
  let doubled := Demo.request "GET" "//user/x" in
  let relative := Demo.request "GET" "a/b" in
  method req = Some (HttpMethods.name HttpMethods.GET) /\
  Suppress.controllers Demo.app !! "/user" = Some Demo.userController /\
  Suppress.handleRootRequest Demo.run Demo.app req
  = SuppressController.handleRequest Demo.run Demo.userController req "/user" /\
  Suppress.basePath (JS.or_else (url doubled) "/") = "/user" /\
  Suppress.basePath (JS.or_else (url relative) "/") = "/a".
Proof.
  intros req doubled relative. split; [reflexivity|]. split; [reflexivity|].
  pose proof (C5_dispatcher_forwards_by_first_segment Demo.run Demo.app req
                HttpMethods.GET eq_refl) as (_ & _ & _ & Hmounted & _).
  split; [exact (Hmounted Demo.userController eq_refl)|].
  pose proof (C5_dispatcher_forwards_by_first_segment Demo.run Demo.app
                doubled HttpMethods.GET eq_refl)
    as (_ & _ & _ & _ & _ & _ & _ & _ & _ & Hdoubled & _).
  pose proof (C5_dispatcher_forwards_by_first_segment Demo.run Demo.app
                relative HttpMethods.GET eq_refl)
    as (_ & _ & _ & _ & _ & _ & _ & _ & _ & Hrelative & _).
  split.
  - apply (Hdoubled "//" "user" "/x"); try reflexivity. right. by exists "x".
  - apply (Hrelative "" "a" "/b"); try reflexivity. right. by exists "b".
Defined.

Lemma C6_witness :
  let table0 := @SuppressController.new Demo.handler in
  let later := [(HttpMethods.POST, "/", Demo.failingHandler)] in
  let req := Demo.request "GET" "/" in
  let out :=
    SuppressController.handleRequest Demo.run
      (register_all
         (register (register table0 HttpMethods.GET "/" Demo.rootHandler)
            HttpMethods.GET "/" Demo.profileHandler) later)
      req "/" Demo.world0 in
  most_recent later HttpMethods.GET "/" = None /\
  method req = Some (HttpMethods.name HttpMethods.GET) /\
  SuppressController.effectivePath req "/" = "/" /\
  Demo.rootHandler <> Demo.profileHandler /\
  out = call Demo.run Demo.profileHandler req Demo.world0 /\
  Demo.rootHandler ∉ drop (length (invoked Demo.world0)) (invoked out.2).
Proof.
  intros table0 later req out.
  split; [reflexivity|]. split; [reflexivity|]. split; [reflexivity|].
  split; [discriminate|].
  pose proof (C6_reregistration_replaces Demo.run table0 Demo.app
                HttpMethods.GET "/" Demo.rootHandler Demo.profileHandler
                "/user" Demo.userController Demo.userController)
    as (_ & Hdispatch & _).
  destruct (Hdispatch later req "/" Demo.world0 eq_refl eq_refl eq_refl)
    as (Hcall & _ & Hold).
  split; [exact Hcall|]. apply Hold. discriminate.
Defined.

Lemma C7_witness :
  let req := Demo.request "GET" "/user" in
  let failed : completion string unit * World Demo.handler :=
    (Abrupt (Raised "boom"), mkWorld fresh_response [Demo.failingHandler]) in
  Demo.run Demo.failingHandler req (response Demo.world0)
  = (Some "boom", fresh_response) /\
  SuppressController.routeHandler Demo.userController req "/user"
  = Some Demo.failingHandler /\
  JS.includes HttpMethods.all (method req) = true /\
  SuppressController.handleRequest Demo.run Demo.userController req "/user"
    Demo.world0 = failed /\
  Suppress.requestListener Demo.run Demo.app req Demo.world0 = failed.
Proof.
  intros req failed.
  split; [reflexivity|]. split; [reflexivity|]. split; [reflexivity|].
  pose proof (C7_handler_error_propagates Demo.run Demo.userController
                Demo.app req "/user" Demo.failingHandler "boom"
                fresh_response Demo.world0 eq_refl) as (Htable & Hroot).
  split; [exact (Htable eq_refl)|].
  exact (proj2 (Hroot eq_refl eq_refl)).
Defined.

Lemma C8_witness :
  let req := Demo.request "POST" "/" in
  method req = Some (HttpMethods.name HttpMethods.POST) /\
  url req = Some "/" /\
  table (SuppressController.routes (Suppress.super Demo.app)) HttpMethods.POST
    !! "/" = None /\
  Suppress.controllers Demo.app !! "/" = None /\
  Suppress.handleRootRequest Demo.run Demo.app req Demo.world0
  = not_found Demo.world0.
Proof.
  intros req. split; [reflexivity|]. split; [reflexivity|].
  split; [reflexivity|]. split; [reflexivity|].
  exact (proj1 (C8_empty_root_is_404 Demo.run Demo.app HttpMethods.POST req
                  Demo.world0 eq_refl eq_refl eq_refl eq_refl)).
Defined.

Lemma C9_witness :
  let req := Demo.request "GET" "/user" in
  "/user" <> "" /\
  url req = Some "/user" /\
  is_segment "user" = true /\
  Suppress.controllers Demo.app !! "/user" = Some Demo.userController /\
  table (SuppressController.routes Demo.userController) HttpMethods.GET !! "/"
  = Some Demo.failingHandler /\
  SuppressController.effectivePath req "/user" = "/" /\
  Suppress.handleRootRequest Demo.run Demo.app req Demo.world0
  = call Demo.run Demo.failingHandler req Demo.world0.
Proof.
  intros req.
  split; [discriminate|]. split; [reflexivity|]. split; [reflexivity|].
  split; [reflexivity|]. split; [reflexivity|].
  pose proof (C9_base_path_alone_is_root Demo.run Demo.app
                Demo.userController HttpMethods.GET Demo.failingHandler
                "user" req "/user" req Demo.world0) as (Hpath & Hcall).
  split.
  - apply Hpath; [discriminate|by left].
  - exact (Hcall eq_refl eq_refl eq_refl eq_refl eq_refl).
Defined.

Lemma C10_witness :
  let req := Demo.request "constructor" "/user/profile" in
  (forall m, method req <> Some (HttpMethods.name m)) /\
  SuppressController.routeHandler Demo.userController req "/user" = None /\
  SuppressController.handleRequest Demo.run Demo.userController req "/user"
    Demo.world0 = not_found Demo.world0.
Proof.
  intros req.
  assert (forall m, method req <> Some (HttpMethods.name m)) as Hout
    by (intros []; discriminate).
  split; [exact Hout|].
  exact (proj1 (C10_lookup_is_total Demo.run Demo.userController req "/user"
                  Demo.world0) Hout).
Defined.

Lemma C4_witness :
  let req := Demo.request "GET" "/user/profile" in
  let inner := Demo.request "GET" "/a/user" in
  url req = Some ("/user" +:+ "/profile") /\
  Suppress.controllers Demo.app !! "/user" = Some Demo.userController /\
  table (SuppressController.routes Demo.userController) HttpMethods.GET
    !! "/profile" = Some Demo.profileHandler /\
  SuppressController.effectivePath req "/user" = "/profile" /\
  Suppress.handleRootRequest Demo.run Demo.app req Demo.world0
  = call Demo.run Demo.profileHandler req Demo.world0 /\
  (forall i, (i < String.length "/a")%nat ->
             occurs_at "/user" ("/a" +:+ "/user" +:+ "") i = false) /\
  SuppressController.effectivePath inner "/user" = "/a".
Proof.
  intros req inner.
  split; [reflexivity|]. split; [reflexivity|]. split; [reflexivity|].
  pose proof (C4_effective_path_strips_first_occurrence Demo.run req "/user"
                Demo.app Demo.userController HttpMethods.GET
                Demo.profileHandler Demo.world0)
    as (_ & Hleading & _ & Hexample).
  split; [exact (Hleading "/profile" eq_refl)|].
  split; [exact (proj1 (Hexample eq_refl eq_refl eq_refl) eq_refl)|].
  assert (forall i, (i < String.length "/a")%nat ->
                    occurs_at "/user" ("/a" +:+ "/user" +:+ "") i = false)
    as Hfirst.
  { intros [|[|i]] Hi; [reflexivity|reflexivity|simpl in Hi; lia]. }
  split; [exact Hfirst|].
  exact (proj1 (C4_effective_path_strips_first_occurrence Demo.run inner
                  "/user" Demo.app Demo.userController HttpMethods.GET
                  Demo.profileHandler Demo.world0) "/a" "" eq_refl Hfirst).
Defined.

(** C4 as it is written fails: the base path [/user] is not a leading
    prefix of [/a/user], yet it is removed and [/a] is looked up. *)
Lemma C4_counterexample :
  let req := Demo.request "GET" "/a/user" in
  String.prefix "/user" "/a/user" = false /\
  with_leading_slash (strip_leading "/a/user" "/user") = "/a/user" /\
  SuppressController.effectivePath req "/user" = "/a" /\
  SuppressController.effectivePath req "/user"
  <> with_leading_slash (strip_leading "/a/user" "/user").
Proof. repeat split. discriminate. Qed.

(* ================================================================== *)
(** * Further properties of the router *)

(** ** Registration *)

Section Registration.
Context {handler exn : Type} (run : behaviour handler exn).

Implicit Types (this : SuppressController.t handler) (app : Suppress.t handler).
Implicit Types (req : IncomingMessage) (w : World handler).
Implicit Types (m : HttpMethods.t) (h : handler).

Lemma method_cases (key : option string) :
  (exists m, key = Some (HttpMethods.name m)) \/
  (forall m, key <> Some (HttpMethods.name m)).
Proof.
  destruct (JS.includes HttpMethods.all key) eqn:Hin.
  - left. by apply includes_true.
  - right. intros m ->. by rewrite includes_method in Hin.
Qed.

Lemma handleRequest_ext this this' req basePath :
  SuppressController.routeHandler this req basePath
  = SuppressController.routeHandler this' req basePath ->
  SuppressController.handleRequest run this req basePath
  = SuppressController.handleRequest run this' req basePath.
Proof. intros Heq. unfold SuppressController.handleRequest. by rewrite Heq. Qed.

Lemma routeHandler_register_other this m path h req basePath :
  ~ (method req = Some (HttpMethods.name m) /\
     SuppressController.effectivePath req basePath = path) ->
  SuppressController.routeHandler (register this m path h) req basePath
  = SuppressController.routeHandler this req basePath.
Proof.
  intros Hother. destruct (method_cases (method req)) as [[m' Hm] | Hout].
  - rewrite !(routeHandler_method _ _ _ m' Hm), table_register.
    destruct (decide _) as [[-> Hp]|_]; [|reflexivity].
    destruct Hother. by split.
  - by rewrite !routeHandler_unrecognized.
Qed.

(** X1. Registering a handler for (method, path) changes nothing for a
    request whose method or effective path differs: its callback is the
    one of the table before the registration. *)
Theorem X1_registration_leaves_other_routes this m path h req basePath :
  ~ (method req = Some (HttpMethods.name m) /\
     SuppressController.effectivePath req basePath = path) ->
  SuppressController.handleRequest run (register this m path h) req basePath
  = SuppressController.handleRequest run this req basePath.
Proof.
  intros Hother. apply handleRequest_ext.
  by apply routeHandler_register_other.
Qed.

(** X2. A route registered under a path that does not start with a slash
    is never matched: with or without it, every request, for every base
    path, gets the same callback. *)
Theorem X2_route_without_leading_slash_is_dead this m path h :
  JS.startsWith path "/" = false ->
  forall req basePath,
    SuppressController.handleRequest run (register this m path h) req basePath
    = SuppressController.handleRequest run this req basePath.
Proof.
  intros Hdead req basePath. apply handleRequest_ext.
  apply routeHandler_register_other. intros [_ Hp].
  pose proof (effectivePath_starts_with_slash req basePath) as Hs.
  rewrite Hp in Hs. congruence.
Qed.

Lemma routeHandler_new req basePath :
  SuppressController.routeHandler (@SuppressController.new handler) req basePath
  = None.
Proof.
  destruct (method_cases (method req)) as [[m Hm] | Hout].
  - rewrite (routeHandler_method _ _ _ m Hm). destruct m; apply lookup_empty.
  - by apply routeHandler_unrecognized.
Qed.

(** X3. A router on which nothing was registered calls no handler: a new
    controller answers 404 to every request, and a new dispatcher answers
    404 to every request with one of the four methods and 405 to all
    others. *)
Theorem X3_new_router_answers_404_or_405 req basePath w :
  SuppressController.handleRequest run SuppressController.new req basePath w
  = not_found w /\
  Suppress.handleRootRequest run Suppress.new req w
  = if JS.includes HttpMethods.all (method req) then not_found w
    else method_not_allowed w.
Proof.
  split.
  - apply handleRequest_not_found, routeHandler_new.
  - destruct (JS.includes HttpMethods.all (method req)) eqn:Hin.
    + rewrite (handleRootRequest_recognized _ _ _ Hin).
      unfold selected. simpl Suppress.controllers. rewrite lookup_empty.
      apply handleRequest_not_found, routeHandler_new.
    + by apply handleRootRequest_unrecognized.
Qed.


(** X5. After a setup phase, a request with one of the four methods is
    served by the handler that the phase registered last for its method
    and effective path; when the phase registered none for that pair, the
    request is served as it was before the phase. *)
Theorem X5_setup_decides_by_last_registration
    this (regs : list (HttpMethods.t * string * handler)) m req basePath :
  method req = Some (HttpMethods.name m) ->
  SuppressController.handleRequest run (register_all this regs) req basePath
  = match most_recent regs m (SuppressController.effectivePath req basePath) with
    | Some h => call run h req
    | None => SuppressController.handleRequest run this req basePath
    end.
Proof.
  intros Hm. unfold SuppressController.handleRequest.
  rewrite !(routeHandler_method _ _ _ m Hm), table_register_all.
  by destruct (most_recent regs m _).
Qed.

End Registration.

(* ------------------------------------------------------------------ *)
(** ** Segments and mount points *)

Section MountPoints.

Lemma segments_mounted (x t : string) :
  is_segment x = true ->
  Suppress.segments (String "/" (x +:+ String "/" t)) = x :: Suppress.segments t.
Proof.
  intros Hx.
  change (String "/" (x +:+ String "/" t))
    with ("" +:+ String "/" (x +:+ String "/" t)).
  by rewrite !segments_app_sep, (segments_segment _ Hx).
Qed.

(** Whatever the path, the base path is [/] or a slash and one segment. *)
Lemma basePath_is_mount_key (path : string) :
  is_mount_key (Suppress.basePath path) = true.
Proof.
  unfold Suppress.basePath.
  pose proof (segments_are_segments path) as Hsegs.
  destruct (Suppress.segments path) as [|first rest]; [reflexivity|].
  inversion Hsegs as [|? ? Hfirst _]; subst.
  change ("/" +:+ first) with (String "/" first). simpl.
  rewrite Hfirst. apply orb_true_r.
Qed.

(** X6. Slashes only separate segments: the segments of [a/b] are those of
    [a] followed by those of [b].  Hence a slash in front of a path or
    behind it changes neither its segments nor its base path. *)
Theorem X6_segments_of_joined_paths (a b : string) :
  Suppress.segments (a +:+ "/" +:+ b)
  = (Suppress.segments a ++ Suppress.segments b)%list /\
  Suppress.segments ("/" +:+ a) = Suppress.segments a /\
  Suppress.segments (a +:+ "/") = Suppress.segments a /\
  Suppress.basePath ("/" +:+ a) = Suppress.basePath a /\
  Suppress.basePath (a +:+ "/") = Suppress.basePath a.
Proof.
  assert (Suppress.segments ("/" +:+ a) = Suppress.segments a) as Hfront.
  { change ("/" +:+ a) with ("" +:+ String "/" a).
    by rewrite segments_app_sep. }
  assert (Suppress.segments (a +:+ "/") = Suppress.segments a) as Hback.
  { change (a +:+ "/") with (a +:+ String "/" "").
    rewrite segments_app_sep. apply app_nil_r. }
  split; [exact (segments_app_sep a b)|].
  split; [exact Hfront|]. split; [exact Hback|].
  unfold Suppress.basePath. by rewrite Hfront, Hback.
Qed.

End MountPoints.

(* ------------------------------------------------------------------ *)
(** ** Dispatch through the dispatcher *)

Section Dispatch.
Context {handler exn : Type} (run : behaviour handler exn).

Implicit Types (this : SuppressController.t handler) (app : Suppress.t handler).
Implicit Types (req : IncomingMessage) (w : World handler).
Implicit Types (m : HttpMethods.t) (h : handler).

Lemma controllers_register_root app m path h :
  Suppress.controllers (register_root app m path h) = Suppress.controllers app.
Proof. by destruct m. Qed.

Lemma super_register_root app m path h :
  Suppress.super (register_root app m path h)
  = register (Suppress.super app) m path h.
Proof. by destruct m. Qed.

Lemma handleRootRequest_same_controllers app app' req c :
  Suppress.controllers app' = Suppress.controllers app ->
  Suppress.controllers app !! Suppress.basePath (JS.or_else (url req) "/")
  = Some c ->
  Suppress.handleRootRequest run app' req
  = Suppress.handleRootRequest run app req.
Proof.
  intros Hsame Hc. unfold Suppress.handleRootRequest.
  by rewrite Hsame, Hc.
Qed.

Lemma handleRootRequest_addController_other app b
    (c : SuppressController.t handler) req :
  Suppress.basePath (JS.or_else (url req) "/") <> b ->
  Suppress.handleRootRequest run (Suppress.addController app b c) req
  = Suppress.handleRootRequest run app req.
Proof.
  intros Hne. unfold Suppress.handleRootRequest, Suppress.addController.
  simpl. by rewrite lookup_insert_ne.
Qed.

(** X7. Every request gets exactly one of three outcomes from the
    dispatcher: the 405 answer (method outside the four), the 404 answer
    (no handler in the selected table), or the call of the handler that
    the selected table holds for the request's method and effective path.
    So at most one handler is called per request, and the dispatcher
    itself never fails with a [TypeError]. *)
Theorem X7_dispatcher_outcomes app req w :
  let out := Suppress.handleRootRequest run app req w in
  let target := selected app req in
  ((JS.includes HttpMethods.all (method req) = false /\
    out = method_not_allowed w) \/
   (JS.includes HttpMethods.all (method req) = true /\
    SuppressController.routeHandler target.1 req target.2 = None /\
    out = not_found w) \/
   (exists m h,
      method req = Some (HttpMethods.name m) /\
      table (SuppressController.routes target.1) m
        !! SuppressController.effectivePath req target.2 = Some h /\
      out = call run h req w)) /\
  (exists hs, invoked out.2 = (invoked w ++ hs)%list /\ (length hs <= 1)%nat) /\
  (forall msg, out.1 <> Abrupt (TypeError msg)).
Proof.
  intros out target.
  assert ((JS.includes HttpMethods.all (method req) = false /\
           out = method_not_allowed w) \/
          (JS.includes HttpMethods.all (method req) = true /\
           SuppressController.routeHandler target.1 req target.2 = None /\
           out = not_found w) \/
          (exists m h,
             method req = Some (HttpMethods.name m) /\
             table (SuppressController.routes target.1) m
               !! SuppressController.effectivePath req target.2 = Some h /\
             out = call run h req w)) as Hcases.
  { destruct (JS.includes HttpMethods.all (method req)) eqn:Hin.
    - right. subst out. rewrite (handleRootRequest_recognized _ _ _ Hin).
      fold target.
      destruct (SuppressController.routeHandler target.1 req target.2)
        as [h|] eqn:Hh.
      + right. destruct (includes_true _ Hin) as [m Hm]. exists m, h.
        split; [exact Hm|].
        split; [by rewrite <- (routeHandler_method _ _ _ m Hm)|].
        by apply handleRequest_found.
      + left. repeat split. by apply handleRequest_not_found.
    - left. split; [reflexivity|]. by apply handleRootRequest_unrecognized. }
  split; [exact Hcases|].
  destruct Hcases as [[_ ->] | [(_ & _ & ->) | (m & h & _ & _ & ->)]].
  - split; [|discriminate].
    exists []. split; [simpl; by rewrite app_nil_r|simpl; lia].
  - split; [|discriminate].
    exists []. split; [simpl; by rewrite app_nil_r|simpl; lia].
  - split.
    + exists [h]. split; [by rewrite call_invoked|simpl; lia].
    + intros msg. unfold call.
      destruct (run h req (response w)) as [[e|] r]; discriminate.
Qed.

(** X9. Mounting a controller at a base path changes nothing for the
    requests whose base path is another one; the match is on the whole
    first segment, not on a string prefix. *)
Theorem X9_mounting_leaves_other_base_paths
    app b (c : SuppressController.t handler) req :
  Suppress.basePath (JS.or_else (url req) "/") <> b ->
  Suppress.handleRootRequest run (Suppress.addController app b c) req
  = Suppress.handleRootRequest run app req.
Proof. apply handleRootRequest_addController_other. Qed.

(** X10. A controller mounted under a key that is neither [/] nor a slash
    followed by exactly one segment (several segments, a trailing slash,
    no leading slash, the empty string) is never reached: every request is
    handled as if it had not been mounted. *)
Theorem X10_unreachable_mount_keys
    app b (c : SuppressController.t handler) :
  is_mount_key b = false ->
  forall req,
    Suppress.handleRootRequest run (Suppress.addController app b c) req
    = Suppress.handleRootRequest run app req.
Proof.
  intros Hdead req. apply handleRootRequest_addController_other.
  intros Hb. pose proof (basePath_is_mount_key (JS.or_else (url req) "/")) as Hk.
  rewrite Hb in Hk. congruence.
Qed.

(** X11. Mounting composes paths: a handler registered under [/t] in a
    controller mounted at [/x] is the one called for a request to [/x/t],
    for every segment [x] and every rest [t] (further segments, a query
    string, nothing at all). *)
Theorem X11_mounted_route_round_trip
    app (c : SuppressController.t handler) m h x t req w :
  is_segment x = true ->
  Suppress.controllers app !! ("/" +:+ x) = Some c ->
  table (SuppressController.routes c) m !! ("/" +:+ t) = Some h ->
  method req = Some (HttpMethods.name m) ->
  url req = Some ("/" +:+ x +:+ "/" +:+ t) ->
  Suppress.handleRootRequest run app req w = call run h req w.
Proof.
  intros Hx Hc Hh Hm Hurl.
  rewrite handleRootRequest_recognized by (rewrite Hm; apply includes_method).
  assert (Suppress.basePath (JS.or_else (url req) "/") = "/" +:+ x) as Hbp.
  { rewrite Hurl.
    change (JS.or_else (Some ("/" +:+ x +:+ "/" +:+ t)) "/")
      with (String "/" (x +:+ String "/" t)).
    unfold Suppress.basePath. by rewrite (segments_mounted _ _ Hx). }
  unfold selected. rewrite Hbp, Hc. simpl.
  apply handleRequest_found.
  rewrite (routeHandler_method _ _ _ m Hm), effectivePath_eq, Hurl.
  change ("/" +:+ x +:+ "/" +:+ t) with (("/" +:+ x) +:+ String "/" t).
  rewrite replace_leading. exact Hh.
Qed.

(** X12. A route registered on the dispatcher itself under a path [/t],
    where [t] does not start with a slash, is the one called for a request
    to exactly that path, as long as no controller is mounted at the base
    path of the request. *)
Theorem X12_root_route_round_trip app m t h req w :
  JS.startsWith t "/" = false ->
  Suppress.controllers app !! Suppress.basePath ("/" +:+ t) = None ->
  method req = Some (HttpMethods.name m) ->
  url req = Some ("/" +:+ t) ->
  Suppress.handleRootRequest run (register_root app m ("/" +:+ t) h) req w
  = call run h req w.
Proof.
  intros Ht Hnone Hm Hurl.
  rewrite handleRootRequest_recognized by (rewrite Hm; apply includes_method).
  unfold selected. rewrite Hurl.
  change (JS.or_else (Some ("/" +:+ t)) "/") with ("/" +:+ t).
  rewrite controllers_register_root, Hnone. simpl.
  apply handleRequest_found.
  rewrite (routeHandler_method _ _ _ m Hm), effectivePath_eq, Hurl.
  rewrite replace_leading, app_nil, super_register_root, table_register.
  rewrite startsWith_slash in Ht.
  assert (with_leading_slash t = "/" +:+ t) as ->.
  { destruct t as [|c t]; [reflexivity|].
    destruct c as [[] [] [] [] [] [] [] []]; try reflexivity. discriminate. }
  by rewrite decide_True.
Qed.

(** X13. The key that is looked up always starts with a slash, whatever
    the url and the base path; and with the empty base path nothing is
    stripped from the url. *)
Theorem X13_lookup_key_starts_with_slash req basePath :
  JS.startsWith (SuppressController.effectivePath req basePath) "/" = true /\
  SuppressController.effectivePath req basePath <> "" /\
  (forall u, url req = Some u ->
             SuppressController.effectivePath req "" = with_leading_slash u).
Proof.
  pose proof (effectivePath_starts_with_slash req basePath) as Hs.
  split; [exact Hs|]. split.
  - intros Hempty. rewrite Hempty in Hs. discriminate.
  - intros u Hurl.
    by rewrite effectivePath_eq, Hurl, replace_unfold, prefix_nil, slice_0.
Qed.

End Dispatch.

(* ------------------------------------------------------------------ *)
(** ** Shared controllers *)

Section ObjectGraph.
Context {handler exn : Type} (run : behaviour handler exn).

Implicit Types (heap : Objects.t handler) (app : Suppress.t handler).
Implicit Types (req : IncomingMessage) (w : World handler).
Implicit Types (m : HttpMethods.t) (h : handler) (o : nat).

(** A request callback on the object graph is the one on its snapshot. *)
Lemma handleRootRequest_snapshot heap req :
  Objects.handleRootRequest run heap req
  = Suppress.handleRootRequest run (Objects.snapshot heap) req.
Proof.
  unfold Objects.handleRootRequest, Suppress.handleRootRequest,
    Objects.snapshot. simpl. rewrite lookup_fmap.
  by destruct (Objects.controllers heap !! _).
Qed.

Lemma snapshot_addController heap basePath o :
  Objects.snapshot (Objects.addController heap basePath o)
  = Suppress.addController (Objects.snapshot heap) basePath
      (Objects.object heap o).
Proof.
  unfold Objects.snapshot, Objects.addController, Suppress.addController.
  simpl. by rewrite fmap_insert.
Qed.

Lemma object_registerOn_same heap o m path h :
  Objects.object (Objects.registerOn heap o m path h) o
  = register (Objects.object heap o) m path h.
Proof.
  unfold Objects.object at 1, Objects.registerOn. simpl.
  by rewrite lookup_insert_eq.
Qed.

Lemma object_registerOn_other heap o o' m path h :
  o' <> o ->
  Objects.object (Objects.registerOn heap o m path h) o'
  = Objects.object heap o'.
Proof.
  intros Hne. unfold Objects.object, Objects.registerOn. simpl.
  by rewrite lookup_insert_ne.
Qed.

(** A registration on the dispatcher is [register_root] on the snapshot as
    long as the dispatcher is not mounted on itself. *)
Lemma snapshot_registerOn_this heap m path h :
  (forall b, Objects.controllers heap !! b <> Some (Objects.this heap)) ->
  Objects.snapshot (Objects.registerOn heap (Objects.this heap) m path h)
  = register_root (Objects.snapshot heap) m path h.
Proof.
  intros Hnot.
  assert (Objects.object (Objects.registerOn heap (Objects.this heap) m path h)
            <$> Objects.controllers heap
          = Objects.object heap <$> Objects.controllers heap) as Hsame.
  { apply map_fmap_ext. intros b o Hb. apply object_registerOn_other.
    intros ->. by apply (Hnot b). }
  unfold Objects.snapshot.
  change (Objects.this (Objects.registerOn heap (Objects.this heap) m path h))
    with (Objects.this heap).
  change (Objects.controllers
            (Objects.registerOn heap (Objects.this heap) m path h))
    with (Objects.controllers heap).
  rewrite Hsame, object_registerOn_same. by destruct m.
Qed.

(** X8. A controller mounted at the base path of a request shadows the
    dispatcher's own routes.  Two dispatchers that hold the same mounted
    tables answer the request alike, whatever their own tables contain;
    and when the mounted object is not the dispatcher itself, a route
    registered on the dispatcher, also under the very url of the request,
    does not change how the request is handled. *)
Theorem X8_mounted_controller_shadows_root
    app req (c root' : SuppressController.t handler) heap o m path h :
  (Suppress.controllers app !! Suppress.basePath (JS.or_else (url req) "/")
   = Some c ->
   Suppress.handleRootRequest run
     (Suppress.mk root' (Suppress.controllers app)) req
   = Suppress.handleRootRequest run app req) /\
  (Objects.controllers heap !! Suppress.basePath (JS.or_else (url req) "/")
   = Some o ->
   o <> Objects.this heap ->
   Objects.handleRootRequest run
     (Objects.registerOn heap (Objects.this heap) m path h) req
   = Objects.handleRootRequest run heap req).
Proof.
  split.
  - intros Hc. by apply (handleRootRequest_same_controllers _ _ _ _ c).
  - intros Ho Hne. unfold Objects.handleRootRequest.
    change (Objects.controllers
              (Objects.registerOn heap (Objects.this heap) m path h))
      with (Objects.controllers heap).
    by rewrite Ho, (object_registerOn_other _ _ _ _ _ _ Hne).
Qed.

(** X14. The dispatcher holds its controllers by reference: a route that is
    registered on a mounted object after it was mounted, the dispatcher
    mounted on itself included, is the one called for a matching request
    under the mount point. *)
Theorem X14_registration_after_mounting_is_seen heap o m path h req w :
  Objects.controllers heap !! Suppress.basePath (JS.or_else (url req) "/")
  = Some o ->
  method req = Some (HttpMethods.name m) ->
  SuppressController.effectivePath req
    (Suppress.basePath (JS.or_else (url req) "/")) = path ->
  Objects.handleRootRequest run (Objects.registerOn heap o m path h) req w
  = call run h req w.
Proof.
  intros Ho Hm Hpath. unfold Objects.handleRootRequest.
  rewrite Hm, includes_method. simpl negb. cbv iota.
  change (Objects.controllers (Objects.registerOn heap o m path h))
    with (Objects.controllers heap).
  rewrite Ho, object_registerOn_same.
  apply handleRequest_found.
  rewrite (routeHandler_method _ _ _ m Hm), Hpath, table_register.
  by rewrite decide_True.
Qed.

End ObjectGraph.

(* ------------------------------------------------------------------ *)
(** ** The further properties on the documented scenario *)

Lemma X1_witness :
  let req := Demo.request "GET" "/user/profile" in
  ~ (method req = Some (HttpMethods.name HttpMethods.GET) /\
     SuppressController.effectivePath req "/user" = "/settings") /\
  SuppressController.handleRequest Demo.run
    (register Demo.userController HttpMethods.GET "/settings" Demo.rootHandler)
    req "/user"
  = SuppressController.handleRequest Demo.run Demo.userController req "/user".
Proof.
  intros req.
  assert (~ (method req = Some (HttpMethods.name HttpMethods.GET) /\
             SuppressController.effectivePath req "/user" = "/settings"))
    as Hother by (intros [_ Hp]; vm_compute in Hp; discriminate).
  split; [exact Hother|].
  exact (X1_registration_leaves_other_routes Demo.run Demo.userController
           HttpMethods.GET "/settings" Demo.rootHandler req "/user" Hother).
Defined.

Lemma X2_witness :
  let req := Demo.request "GET" "profile" in
  JS.startsWith "profile" "/" = false /\
  SuppressController.handleRequest Demo.run
    (register SuppressController.new HttpMethods.GET "profile"
       Demo.profileHandler) req "/"
  = SuppressController.handleRequest Demo.run SuppressController.new req "/".
Proof.
  intros req. split; [reflexivity|].
  exact (X2_route_without_leading_slash_is_dead Demo.run
           SuppressController.new HttpMethods.GET "profile"
           Demo.profileHandler eq_refl req "/").
Defined.


Lemma X5_witness :
  let regs := [(HttpMethods.GET, "/profile", Demo.rootHandler);
               (HttpMethods.POST, "/profile", Demo.failingHandler)] in
  let req := Demo.request "GET" "/user/profile" in
  method req = Some (HttpMethods.name HttpMethods.GET) /\
  SuppressController.handleRequest Demo.run
    (register_all Demo.userController regs) req "/user"
  = call Demo.run Demo.rootHandler req.
Proof.
  intros regs req. split; [reflexivity|].
  exact (X5_setup_decides_by_last_registration Demo.run Demo.userController
           regs HttpMethods.GET req "/user" eq_refl).
Defined.

Lemma X8_witness :
  let req := Demo.request "GET" "/user/profile" in
  Suppress.controllers Demo.app
    !! Suppress.basePath (JS.or_else (url req) "/") = Some Demo.userController /\
  Objects.controllers DemoObjects.heap
    !! Suppress.basePath (JS.or_else (url req) "/") = Some 1%nat /\
  1%nat <> Objects.this DemoObjects.heap /\
  Suppress.handleRootRequest Demo.run
    (Suppress.mk SuppressController.new (Suppress.controllers Demo.app)) req
  = Suppress.handleRootRequest Demo.run Demo.app req /\
  Objects.handleRootRequest Demo.run
    (Objects.registerOn DemoObjects.heap (Objects.this DemoObjects.heap)
       HttpMethods.GET "/user/profile" Demo.rootHandler) req
  = Objects.handleRootRequest Demo.run DemoObjects.heap req.
Proof.
  intros req. split; [reflexivity|]. split; [reflexivity|].
  assert (1%nat <> Objects.this DemoObjects.heap) as Hne by discriminate.
  split; [exact Hne|].
  pose proof (X8_mounted_controller_shadows_root Demo.run Demo.app req
                Demo.userController SuppressController.new DemoObjects.heap
                1%nat HttpMethods.GET "/user/profile" Demo.rootHandler)
    as (Hstates & Hregistered).
  split; [exact (Hstates eq_refl)|exact (Hregistered eq_refl Hne)].
Defined.

Lemma X9_witness :
  let req := Demo.request "GET" "/username" in
  Suppress.basePath (JS.or_else (url req) "/") <> "/user" /\
  Suppress.handleRootRequest Demo.run
    (Suppress.addController (Suppress.get Suppress.new "/" Demo.rootHandler)
       "/user" Demo.userController) req
  = Suppress.handleRootRequest Demo.run
      (Suppress.get Suppress.new "/" Demo.rootHandler) req.
Proof.
  intros req.
  assert (Suppress.basePath (JS.or_else (url req) "/") <> "/user") as Hne
    by (vm_compute; discriminate).
  split; [exact Hne|].
  exact (X9_mounting_leaves_other_base_paths Demo.run
           (Suppress.get Suppress.new "/" Demo.rootHandler) "/user"
           Demo.userController req Hne).
Defined.

Lemma X10_witness :
  let req := Demo.request "GET" "/api/v1" in
  is_mount_key "/api/v1" = false /\
  Suppress.handleRootRequest Demo.run
    (Suppress.addController Demo.app "/api/v1" Demo.userController) req
  = Suppress.handleRootRequest Demo.run Demo.app req.
Proof.
  intros req. split; [reflexivity|].
  exact (X10_unreachable_mount_keys Demo.run Demo.app "/api/v1"
           Demo.userController eq_refl req).
Defined.

Lemma X11_witness :
  let req := Demo.request "GET" "/user/profile" in
  is_segment "user" = true /\
  Suppress.controllers Demo.app !! ("/" +:+ "user") = Some Demo.userController /\
  table (SuppressController.routes Demo.userController) HttpMethods.GET
    !! ("/" +:+ "profile") = Some Demo.profileHandler /\
  method req = Some (HttpMethods.name HttpMethods.GET) /\
  url req = Some ("/" +:+ "user" +:+ "/" +:+ "profile") /\
  Suppress.handleRootRequest Demo.run Demo.app req Demo.world0
  = call Demo.run Demo.profileHandler req Demo.world0.
Proof.
  intros req. split; [reflexivity|]. split; [reflexivity|].
  split; [reflexivity|]. split; [reflexivity|]. split; [reflexivity|].
  exact (X11_mounted_route_round_trip Demo.run Demo.app Demo.userController
           HttpMethods.GET Demo.profileHandler "user" "profile" req
           Demo.world0 eq_refl eq_refl eq_refl eq_refl eq_refl).
Defined.

Lemma X12_witness :
  let req := Demo.request "POST" "/about" in
  JS.startsWith "about" "/" = false /\
  Suppress.controllers Demo.app !! Suppress.basePath ("/" +:+ "about") = None /\
  method req = Some (HttpMethods.name HttpMethods.POST) /\
  url req = Some ("/" +:+ "about") /\
  Suppress.handleRootRequest Demo.run
    (register_root Demo.app HttpMethods.POST ("/" +:+ "about")
       Demo.rootHandler) req Demo.world0
  = call Demo.run Demo.rootHandler req Demo.world0.
Proof.
  intros req. split; [reflexivity|]. split; [reflexivity|].
  split; [reflexivity|]. split; [reflexivity|].
  exact (X12_root_route_round_trip Demo.run Demo.app HttpMethods.POST "about"
           Demo.rootHandler req Demo.world0 eq_refl eq_refl eq_refl eq_refl).
Defined.

Lemma X13_witness :
  let req := Demo.request "GET" "users" in
  url req = Some "users" /\
  SuppressController.effectivePath req "" = "/users".
Proof.
  intros req. split; [reflexivity|].
  exact (proj2 (proj2 (X13_lookup_key_starts_with_slash req "/user"))
           "users" eq_refl).
Defined.

Lemma X14_witness :
  let req := Demo.request "GET" "/x" in
  Objects.controllers DemoObjects.heap
    !! Suppress.basePath (JS.or_else (url req) "/")
  = Some (Objects.this DemoObjects.heap) /\
  method req = Some (HttpMethods.name HttpMethods.GET) /\
  SuppressController.effectivePath req
    (Suppress.basePath (JS.or_else (url req) "/")) = "/" /\
  Objects.handleRootRequest Demo.run DemoObjects.heap req Demo.world0
  = not_found Demo.world0 /\
  Objects.handleRootRequest Demo.run
    (Objects.registerOn DemoObjects.heap (Objects.this DemoObjects.heap)
       HttpMethods.GET "/" Demo.rootHandler) req Demo.world0
  = call Demo.run Demo.rootHandler req Demo.world0.
Proof.
  intros req. split; [reflexivity|]. split; [reflexivity|].
  split; [reflexivity|]. split; [reflexivity|].
  exact (X14_registration_after_mounting_is_seen Demo.run DemoObjects.heap
           (Objects.this DemoObjects.heap) HttpMethods.GET "/"
           Demo.rootHandler req Demo.world0 eq_refl eq_refl eq_refl).
Defined.
